(** * BDS relay server (server.py): a shallow embedding and its properties

    The development follows the layout of [server.py]:
    - [Py]      the Python built-ins the program relies on ([str.strip],
                [str.lower], truthiness, [str(int)], [str.join]);
    - [Json]    the values handed to [json.dumps] and their serialisation;
    - [Config]  the module-level configuration read from the environment;
    - the effect monad [M]: a computation runs in a [world] (the shared
      [connected_clients] set, the state of the transports, the token file
      and a log of the actions taken) and returns or raises a Python
      exception;
    - [ws_handler], [on_redemption], [on_cheer], [load_tokens],
      [save_tokens] and [main], each written statement by statement after
      the source;
    - [dispatch] and [run]: the event loop, which takes one event at a time
      (an overlay connects, a transport closes, a handler wakes up, the
      upstream calls a callback) and runs its handler up to the next
      suspension.

    Python [str] is modelled by [string]; a character stands for the code
    point of the same number (0 to 255).  Python [int] is [Z].  A call into
    a library is modelled on its normal return, except where the source
    itself provides for its failure ([send], [set_user_authentication],
    [open], [json.load], [set.remove], the cancelled wait). *)

From Stdlib Require Import ZArith Ascii String List Lia DecimalString.
From stdpp Require Import base decidable option list sets gmap strings.

Set Warnings "-register-all".

Local Open Scope Z_scope.

(* ===================================================================== *)
(** ** Python built-ins *)
(* ===================================================================== *)

Module Py.

(** [str.isspace] on one code point below 256: TAB..CR, FS..US, SPACE,
    NEL and NBSP. *)
Definition isspace (a : ascii) : bool :=
  let n := N_of_ascii a in
  ((9 <=? n) && (n <=? 13) || (28 <=? n) && (n <=? 32)
   || (n =? 133) || (n =? 160))%N.

(** [str.lstrip()] without argument. *)
Fixpoint lstrip (s : string) : string :=
  match s with
  | EmptyString => EmptyString
  | String a s' => if isspace a then lstrip s' else s
  end.

(** [str.rstrip()] without argument. *)
Fixpoint rstrip (s : string) : string :=
  match s with
  | EmptyString => EmptyString
  | String a s' =>
      match rstrip s' with
      | EmptyString => if isspace a then EmptyString else String a EmptyString
      | r => String a r
      end
  end.

(** [str.strip()] *)
Definition strip (s : string) : string := rstrip (lstrip s).

(** [str.lower()] on one code point below 256: A..Z and the Latin-1
    capitals (all of 0xC0..0xDE but the multiplication sign). *)
Definition lower_char (a : ascii) : ascii :=
  let n := N_of_ascii a in
  if ((65 <=? n) && (n <=? 90)
      || (192 <=? n) && (n <=? 222) && negb (n =? 215))%N
  then ascii_of_N (n + 32) else a.

Fixpoint lower (s : string) : string :=
  match s with
  | EmptyString => EmptyString
  | String a s' => String (lower_char a) (lower s')
  end.

(** [x in {...}] for a set display of strings. *)
Definition str_in (x : string) (xs : list string) : bool :=
  existsb (String.eqb x) xs.

(** [str(n)] for an [int]. *)
Definition str_of_int (n : Z) : string := NilZero.string_of_int (Z.to_int n).

(** [str(n)] for a length. *)
Definition str_of_nat (n : nat) : string := str_of_int (Z.of_nat n).

(** Truth value of a [str]: the empty string is false. *)
Definition str_truthy (s : string) : bool :=
  match s with EmptyString => false | _ => true end.

(** [s.join(parts)] *)
Fixpoint join (sep : string) (parts : list string) : string :=
  match parts with
  | [] => EmptyString
  | [p] => p
  | p :: ps => p +:+ sep +:+ join sep ps
  end.

End Py.

(* ===================================================================== *)
(** ** JSON values and [json.dumps] *)
(* ===================================================================== *)

Module Json.

(** The Python values that travel through [json.dumps] and [json.load].
    [JNull] is [None]; a [dict] keeps its insertion order.  A [float] is
    kept as its [repr]. *)
Inductive json : Type :=
| JNull
| JBool (b : bool)
| JInt (n : Z)
| JFloat (repr : string)
| JStr (s : string)
| JList (items : list json)
| JDict (items : list (string * json)).

(** Python truthiness: [None], [False], [0], the empty string, [[]]
    and [{}] are false.  (A float is false when it is zero.) *)
Definition truthy (v : json) : bool :=
  match v with
  | JNull => false
  | JBool b => b
  | JInt n => negb (n =? 0)
  | JFloat r => negb (Py.str_in r ["0.0"; "-0.0"])
  | JStr s => Py.str_truthy s
  | JList l => match l with [] => false | _ => true end
  | JDict l => match l with [] => false | _ => true end
  end.

(** The double quote and the backslash. *)
Definition dquote : ascii := ascii_of_N 34.
Definition backslash : ascii := ascii_of_N 92.

Definition hex_digit (n : N) : ascii :=
  (if n <? 10 then ascii_of_N (48 + n) else ascii_of_N (87 + n))%N.

(** One character of a string literal, as [json.dumps] writes it with its
    default [ensure_ascii=True]. *)
Definition escape_char (a : ascii) : string :=
  let n := N_of_ascii a in
  if (n =? 34)%N then String backslash (String dquote EmptyString)
  else if (n =? 92)%N then String backslash (String backslash EmptyString)
  else if (n =? 10)%N then "\n"
  else if (n =? 13)%N then "\r"
  else if (n =? 9)%N then "\t"
  else if (n =? 8)%N then "\b"
  else if (n =? 12)%N then "\f"
  else if ((32 <=? n) && (n <=? 126))%N then String a EmptyString
  else "\u00" +:+ String (hex_digit (n / 16))
                    (String (hex_digit (n mod 16)) EmptyString).

Fixpoint escape (s : string) : string :=
  match s with
  | EmptyString => EmptyString
  | String a s' => escape_char a +:+ escape s'
  end.

Definition quote (s : string) : string :=
  String dquote (escape s +:+ String dquote EmptyString).

(** [json.dumps(v)] with the default separators [", "] and [": "]. *)
Fixpoint dumps (v : json) : string :=
  match v with
  | JNull => "null"
  | JBool true => "true"
  | JBool false => "false"
  | JInt n => Py.str_of_int n
  | JFloat r => r
  | JStr s => quote s
  | JList l => "[" +:+ Py.join ", " (map dumps l) +:+ "]"
  | JDict l =>
      "{" +:+ Py.join ", "
                (map (fun kv => quote (fst kv) +:+ ": " +:+ dumps (snd kv)) l)
          +:+ "}"
  end.

(** [d.get(key)] on a [dict]: the value, or [None]. *)
Fixpoint dict_get (key : string) (items : list (string * json)) : json :=
  match items with
  | [] => JNull
  | (k, v) :: rest => if String.eqb k key then v else dict_get key rest
  end.

End Json.

Import Json.

(* ===================================================================== *)
(** ** Module-level configuration (server.py, lines 14 to 20) *)
(* ===================================================================== *)

Module Config.

(** [os.getenv(key, dflt)]; [environ] is the process environment after
    [load_dotenv] has filled in the keys of the [.env] file. *)
Definition getenv (environ : gmap string string) (key dflt : string) : string :=
  default dflt (environ !! key).

Definition BDS_DEBUG (environ : gmap string string) : bool :=
  Py.str_in (Py.lower (Py.strip (getenv environ "BDS_DEBUG" EmptyString)))
            ["1"; "true"; "yes"; "on"].

Definition APP_ID (environ : gmap string string) : string :=
  getenv environ "TWITCH_APP_ID" EmptyString.

Definition APP_SECRET (environ : gmap string string) : string :=
  getenv environ "TWITCH_APP_SECRET" EmptyString.

Definition TARGET_CHANNEL (environ : gmap string string) : string :=
  getenv environ "TWITCH_TARGET_CHANNEL" EmptyString.

Definition BDS_RELAY_ONLY (environ : gmap string string) : bool :=
  Py.str_in (Py.lower (Py.strip (getenv environ "BDS_RELAY_ONLY" EmptyString)))
            ["1"; "true"; "yes"; "on"].

(** The globals [main] reads.  [LOCAL_WS_PORT] is the integer that
    [int(os.getenv('LOCAL_WS_PORT', '8765'))] evaluated to. *)
Record t : Type := Make {
  app_id : string;
  app_secret : string;
  target_channel : string;
  local_ws_port : Z;
  relay_only : bool;
  debug : bool
}.

Definition load (environ : gmap string string) (port : Z) : t :=
  {| app_id := APP_ID environ;
     app_secret := APP_SECRET environ;
     target_channel := TARGET_CHANNEL environ;
     local_ws_port := port;
     relay_only := BDS_RELAY_ONLY environ;
     debug := BDS_DEBUG environ |}.

End Config.

(* ===================================================================== *)
(** ** Worlds, exceptions and the effect monad *)
(* ===================================================================== *)

(** A websocket connection object; [connected_clients] compares them by
    identity. *)
Definition conn : Type := nat.

Inductive exn_class : Type :=
| KeyError | RuntimeError | OSError | JSONDecodeError | AttributeError
| ConnectionClosed | TwitchAPIException | CancelledError.

(** A raised exception: its class and [str(e)]. *)
Inductive exn : Type := Exn (cls : exn_class) (msg : string).

(** [isinstance(e, Exception)]: [asyncio.CancelledError] derives from
    [BaseException] only. *)
Definition is_Exception (e : exn) : bool :=
  match e with
  | Exn CancelledError _ => false
  | Exn _ _ => true
  end.

Definition is_CancelledError (e : exn) : bool :=
  match e with
  | Exn CancelledError _ => true
  | Exn _ _ => false
  end.

(** What the program does to the outside, in the order it does it. *)
Inductive action : Type :=
| Print (line : string)
| Dumps (v : json)                               (* a call of json.dumps *)
| Frame (client : conn) (payload : string)       (* a text frame written *)
| Serve (host : string) (port : Z)               (* websockets.serve *)
| RunnerSetup                                    (* runner.setup() *)
| SiteStart (host : string) (port : Z)           (* site.start() *)
| AwaitFuture                                    (* await asyncio.Future() *)
| ServerClose                                    (* ws_server.close() *)
| RunnerCleanup                                  (* runner.cleanup() *)
| TwitchInit (app_id app_secret : string)        (* Twitch(APP_ID, APP_SECRET) *)
| SetUserAuthentication (token refresh_token : json)
| Authenticate                                   (* auth.authenticate() *)
| GetUsers (login : string)                      (* twitch.get_users *)
| EventSubStart                                  (* eventsub.start() *)
| ListenRedemption (user_id : string)
| ListenCheer (user_id : string)
| EventSubStop                                   (* eventsub.stop() *)
| TwitchClose.                                   (* twitch.close() *)

(** The state of [tokens.json]: not there, there but impossible to open,
    or there with some text. *)
Inductive file_state : Type :=
| Absent
| Unreadable
| Content (text : string).

Record world : Type := World {
  connected_clients : gset conn;     (* the module-level set *)
  open_conns : gset conn;            (* connections whose transport is open *)
  token_file : file_state;           (* TOKEN_FILE *)
  log : list action                  (* oldest action first *)
}.

Definition with_clients (s : gset conn) (w : world) : world :=
  {| connected_clients := s; open_conns := open_conns w;
     token_file := token_file w; log := log w |}.

Definition with_open (s : gset conn) (w : world) : world :=
  {| connected_clients := connected_clients w; open_conns := s;
     token_file := token_file w; log := log w |}.

Definition with_token_file (f : file_state) (w : world) : world :=
  {| connected_clients := connected_clients w; open_conns := open_conns w;
     token_file := f; log := log w |}.

Definition with_log (l : list action) (w : world) : world :=
  {| connected_clients := connected_clients w; open_conns := open_conns w;
     token_file := token_file w; log := l |}.

Inductive result (A : Type) : Type :=
| Ok (a : A)
| Raise (e : exn).
Arguments Ok {A} a.
Arguments Raise {A} e.

(** A computation: it runs in a world and either returns or raises. *)
Definition M (A : Type) : Type := world → result A * world.

#[global] Instance M_ret : MRet M := λ A a w, (Ok a, w).

#[global] Instance M_bind : MBind M := λ A B k m w,
  match m w with
  | (Ok a, w') => k a w'
  | (Raise e, w') => (Raise e, w')
  end.

Definition raise {A : Type} (e : exn) : M A := λ w, (Raise e, w).

(** [try: body / except <catches> as e: handler e] *)
Definition try_except {A : Type} (body : M A) (catches : exn → bool)
    (handler : exn → M A) : M A := λ w,
  match body w with
  | (Ok a, w') => (Ok a, w')
  | (Raise e, w') => if catches e then handler e w' else (Raise e, w')
  end.

(** [try: body / finally: fin] *)
Definition try_finally {A : Type} (body : M A) (fin : M unit) : M A := λ w,
  match body w with
  | (r, w') =>
      match fin w' with
      | (Ok _, w'') => (r, w'')
      | (Raise e, w'') => (Raise e, w'')
      end
  end.

Definition emit (a : action) : M unit := λ w, (Ok tt, with_log (log w ++ [a]) w).

Definition print (line : string) : M unit := emit (Print line).

(** [json.dumps(v)] *)
Definition json_dumps (v : json) : M string :=
  emit (Dumps v) ;; mret (dumps v).

(** The current value of the global [connected_clients]. *)
Definition get_clients : M (gset conn) := λ w, (Ok (connected_clients w), w).

(** Stands for the [repr] of a connection object: it tells the connections
    apart. *)
Definition conn_repr (c : conn) : string :=
  "<ServerConnection " +:+ Py.str_of_nat c +:+ ">".

(** [connected_clients.add(websocket)] *)
Definition set_add (websocket : conn) : M unit := λ w,
  (Ok tt, with_clients ({[websocket]} ∪ connected_clients w) w).

(** [connected_clients.remove(websocket)]: [set.remove] raises [KeyError]
    when the element is not a member. *)
Definition set_remove (websocket : conn) : M unit := λ w,
  if decide (websocket ∈ connected_clients w)
  then (Ok tt, with_clients (connected_clients w ∖ {[websocket]}) w)
  else (Raise (Exn KeyError (conn_repr websocket)), w).

(** [await client.send(payload)]: the frame is written when the transport
    is open, and [ConnectionClosed] is raised otherwise. *)
Definition send (client : conn) (payload : string) : M unit := λ w,
  if decide (client ∈ open_conns w)
  then emit (Frame client payload) w
  else (Raise (Exn ConnectionClosed EmptyString), w).

(** A task made by [asyncio.create_task]: when it runs, the outcome of its
    coroutine (a return or an exception) is stored in the task. *)
Definition run_task {A : Type} (coro : M A) : M (result A) := λ w,
  match coro w with
  | (r, w') => (Ok r, w')
  end.

(** [await asyncio.wait(tasks)]: every task runs to its end; the exceptions
    stay in the tasks. *)
Fixpoint asyncio_wait {A : Type} (tasks : list (M A)) : M (list (result A)) :=
  match tasks with
  | [] => mret []
  | t :: ts => r ← run_task t; rs ← asyncio_wait ts; mret (r :: rs)
  end.

(* ===================================================================== *)
(** ** The connection handler and the two event callbacks *)
(* ===================================================================== *)

(** [data.event] of a channel-points redemption. *)
Record redemption_event : Type := {
  reward_title : string;                (* data.event.reward.title *)
  redeemer_name : string                (* data.event.user_name *)
}.

(** [data.event] of a cheer; the user name is [None] for an anonymous one. *)
Record cheer_event : Type := {
  bits : Z;                             (* data.event.bits *)
  user_name : option string             (* data.event.user_name *)
}.

(** [x or dflt] for an optional string: [None] and the empty string are
    both false. *)
Definition or_else (x : option string) (dflt : string) : string :=
  match x with
  | Some s => if Py.str_truthy s then s else dflt
  | None => dflt
  end.

(** [ws_handler] up to its [await]: lines 66 and 67. *)
Definition ws_handler_connected (websocket : conn) : M unit :=
  set_add websocket ;;
  clients ← get_clients;
  print ("Overlay connected! (Total: " +:+ Py.str_of_nat (size clients) +:+ ")").

(** The [finally] block of [ws_handler]: lines 71 and 72. *)
Definition ws_handler_closed (websocket : conn) : M unit :=
  set_remove websocket ;;
  clients ← get_clients;
  print ("Overlay disconnected. (Total: " +:+ Py.str_of_nat (size clients) +:+ ")").


(** [on_redemption(data)] *)
Definition on_redemption (data : redemption_event) : M unit :=
  let reward_title := reward_title data in
  let user_name := redeemer_name data in
  print ("Redemption received: " +:+ reward_title +:+ " by " +:+ user_name) ;;
  clients ← get_clients;
  if decide (clients ≠ ∅) then
    payload ← json_dumps (JDict [("reward", JStr reward_title);
                                 ("user", JStr user_name)]);
    let tasks := map (λ client, send client payload) (elements clients) in
    match tasks with
    | [] => mret tt
    | _ :: _ => asyncio_wait tasks ;; mret tt
    end
  else mret tt.

(** [on_cheer(data)] *)
Definition on_cheer (data : cheer_event) : M unit :=
  let bits := bits data in
  let user_name := or_else (user_name data) "Anonymous" in
  print ("Cheer received: " +:+ Py.str_of_int bits +:+ " bits by " +:+ user_name) ;;
  let beans_count := bits * 2 in
  let show_text := bits >=? 100 in
  clients ← get_clients;
  if decide (clients ≠ ∅) then
    payload ← json_dumps (JDict [("type", JStr "cheer");
                                 ("user", JStr user_name);
                                 ("beans", JInt beans_count);
                                 ("showText", JBool show_text)]);
    let tasks := map (λ client, send client payload) (elements clients) in
    match tasks with
    | [] => mret tt
    | _ :: _ => asyncio_wait tasks ;; mret tt
    end
  else mret tt.

(** What the event loop dispatches while [main] is suspended. *)
Inductive event : Type :=
| Accept (c : conn)                     (* an overlay connects *)
| Lost (c : conn)                       (* the transport of [c] closes *)
| Closed (c : conn)                     (* [wait_closed] returns in [c]'s handler *)
| Redemption (data : redemption_event)  (* the upstream calls [on_redemption] *)
| Cheer (data : cheer_event).           (* the upstream calls [on_cheer] *)

Definition transport_open (c : conn) : M unit := λ w,
  (Ok tt, with_open ({[c]} ∪ open_conns w) w).

Definition transport_close (c : conn) : M unit := λ w,
  (Ok tt, with_open (open_conns w ∖ {[c]}) w).

Definition dispatch (ev : event) : M unit :=
  match ev with
  | Accept c => transport_open c ;; ws_handler_connected c
  | Lost c => transport_close c
  | Closed c => ws_handler_closed c
  | Redemption data => on_redemption data
  | Cheer data => on_cheer data
  end.

(** Each event is handled by a task of its own: an exception ends that
    task and nothing else. *)
Fixpoint run (evs : list event) (w : world) : world :=
  match evs with
  | [] => w
  | ev :: rest => run rest (dispatch ev w).2
  end.

(** The frames written to one connection, oldest first. *)
Fixpoint frames_of (c : conn) (l : list action) : list string :=
  match l with
  | [] => []
  | Frame c' payload :: rest =>
      if decide (c' = c) then payload :: frames_of c rest else frames_of c rest
  | _ :: rest => frames_of c rest
  end.

(** The values serialised with [json.dumps], oldest first. *)
Fixpoint dumped (l : list action) : list json :=
  match l with
  | [] => []
  | Dumps v :: rest => v :: dumped rest
  | _ :: rest => dumped rest
  end.

(* ===================================================================== *)
(** ** Saved tokens and [main] *)
(* ===================================================================== *)

(** The collaborators [main] calls and does not define: the JSON parser
    and the Twitch client. *)
Record externals : Type := {
  (* json.load on the text of a file; None when it raises JSONDecodeError *)
  json_loads : string → option json;
  (* twitch.set_user_authentication: Some e when it raises e *)
  set_user_authentication : json → json → option exn;
  (* the pair auth.authenticate() returns *)
  authenticate : string * string;
  (* the ids of the users twitch.get_users(logins=[login]) yields *)
  get_users : string → list string
}.

Section Program.

Context (ext : externals) (cfg : Config.t).

(** [os.path.exists(TOKEN_FILE)] *)
Definition path_exists : M bool := λ w,
  (Ok (match token_file w with Absent => false | _ => true end), w).

(** [with open(TOKEN_FILE, 'r') as f: data = json.load(f)] *)
Definition read_json : M json := λ w,
  match token_file w with
  | Absent => (Raise (Exn OSError "No such file or directory"), w)
  | Unreadable => (Raise (Exn OSError "Permission denied"), w)
  | Content text =>
      match json_loads ext text with
      | Some v => (Ok v, w)
      | None => (Raise (Exn JSONDecodeError "Expecting value"), w)
      end
  end.

(** [data.get(key)]: only a [dict] has the method. *)
Definition get_method (data : json) (key : string) : M json :=
  match data with
  | JDict items => mret (dict_get key items)
  | _ => raise (Exn AttributeError "object has no attribute 'get'")
  end.

(** [load_tokens()] *)
Definition load_tokens : M (json * json) :=
  found ← path_exists;
  if negb found then mret (JNull, JNull)
  else
    try_except
      (data ← read_json;
       token ← get_method data "token";
       refresh_token ← get_method data "refresh_token";
       mret (token, refresh_token))
      is_Exception
      (λ _, mret (JNull, JNull)).

(** [save_tokens(token, refresh_token)] *)
Definition save_tokens (token refresh_token : json) : M unit := λ w,
  match token_file w with
  | Unreadable => (Raise (Exn OSError "Permission denied"), w)
  | _ =>
      (Ok tt,
       with_token_file
         (Content (dumps (JDict [("token", token);
                                 ("refresh_token", refresh_token)]))) w)
  end.

(** [await twitch.set_user_authentication(token, target_scopes, refresh_token)] *)
Definition twitch_set_user_authentication (token refresh_token : json) : M unit :=
  emit (SetUserAuthentication token refresh_token) ;;
  match set_user_authentication ext token refresh_token with
  | Some e => raise e
  | None => mret tt
  end.

(** [await asyncio.Future()]: the future is never resolved, so the await
    ends only when the task is cancelled. *)
Definition await_future : M unit :=
  emit AwaitFuture ;; raise (Exn CancelledError EmptyString).

Definition missing_configuration : string :=
  "Missing Twitch configuration. Set TWITCH_APP_ID, TWITCH_APP_SECRET, and TWITCH_TARGET_CHANNEL (or run with BDS_RELAY_ONLY=1). You can place these in a .env file next to server.py or point BDS_ENV_FILE to an external .env file.".

(** [main()] *)
Definition main : M unit :=
  let APP_ID := Config.app_id cfg in
  let APP_SECRET := Config.app_secret cfg in
  let TARGET_CHANNEL := Config.target_channel cfg in
  let LOCAL_WS_PORT := Config.local_ws_port cfg in
  (* 1. local websocket server and HTTP server *)
  print ("Starting local relay server on port "
           +:+ Py.str_of_int LOCAL_WS_PORT +:+ "...") ;;
  emit (Serve "0.0.0.0" LOCAL_WS_PORT) ;;
  emit RunnerSetup ;;
  emit (SiteStart "0.0.0.0" 8080) ;;
  print "Serving Overlay on http://0.0.0.0:8080" ;;
  if Config.relay_only cfg then
    print "Relay-only mode enabled; not connecting to Twitch." ;;
    try_finally
      (try_except await_future is_CancelledError (λ _, print "Stopping..."))
      (emit ServerClose) ;;
    mret tt
  else
  (* 2. Twitch API *)
  print "Connecting to Twitch..." ;;
  if negb (Py.str_truthy APP_ID) || negb (Py.str_truthy APP_SECRET)
     || negb (Py.str_truthy TARGET_CHANNEL)
  then raise (Exn RuntimeError missing_configuration)
  else
  emit (TwitchInit APP_ID APP_SECRET) ;;
  (* 3. authenticate *)
  '(token, refresh_token) ← load_tokens;
  token ← (if truthy token && truthy refresh_token then
             try_except
               (twitch_set_user_authentication token refresh_token ;;
                print "Using saved authentication tokens." ;;
                mret token)
               is_Exception
               (λ e, let 'Exn _ msg := e in
                     print ("Saved tokens failed (" +:+ msg
                              +:+ "), re-authenticating...") ;;
                     mret JNull)
           else mret token);
  (if negb (truthy token) then
     print "Opening browser for Twitch authentication..." ;;
     emit Authenticate ;;
     let '(token, refresh_token) := authenticate ext in
     twitch_set_user_authentication (JStr token) (JStr refresh_token) ;;
     save_tokens (JStr token) (JStr refresh_token) ;;
     print "Authentication successful and tokens saved."
   else mret tt) ;;
  (* 4. user id *)
  emit (GetUsers TARGET_CHANNEL) ;;
  let user_id := head (get_users ext TARGET_CHANNEL) in
  match user_id with
  | None | Some EmptyString =>
      raise (Exn RuntimeError
               ("Could not find Twitch user for login: " +:+ TARGET_CHANNEL))
  | Some user_id =>
      print ("Listening for events on channel: " +:+ TARGET_CHANNEL
               +:+ " (ID: " +:+ user_id +:+ ")") ;;
      (* 5. EventSub *)
      emit EventSubStart ;;
      (* 6. subscriptions *)
      emit (ListenRedemption user_id) ;;
      emit (ListenCheer user_id) ;;
      print "EventSub connected! Waiting for beans (Points & Bits)..." ;;
      try_finally
        (try_except await_future is_CancelledError (λ _, print "Stopping..."))
        (emit EventSubStop ;; emit ServerClose ;; emit RunnerCleanup ;;
         emit TwitchClose)
  end.

End Program.

(** The actions that reach the upstream platform. *)
Definition is_upstream (a : action) : bool :=
  match a with
  | TwitchInit _ _ | SetUserAuthentication _ _ | Authenticate | GetUsers _
  | EventSubStart | ListenRedemption _ | ListenCheer _ | EventSubStop
  | TwitchClose => true
  | _ => false
  end.

(** The actions that bind a listening endpoint. *)
Definition is_bind (a : action) : bool :=
  match a with
  | Serve _ _ | SiteStart _ _ => true
  | _ => false
  end.

Definition world0 : world :=
  {| connected_clients := ∅; open_conns := ∅; token_file := Absent; log := [] |}.

(* ===================================================================== *)
(** ** Specification-side vocabulary *)
(* ===================================================================== *)

(** A string made of whitespace only. *)
Fixpoint all_space (s : string) : bool :=
  match s with
  | EmptyString => true
  | String a s' => Py.isspace a && all_space s'
  end.

(** The first and the last character of a string. *)
Definition first_char (s : string) : option ascii :=
  match s with
  | EmptyString => None
  | String a _ => Some a
  end.

Fixpoint last_char (s : string) : option ascii :=
  match s with
  | EmptyString => None
  | String a s' =>
      match last_char s' with
      | None => Some a
      | Some b => Some b
      end
  end.

(** Neither end of the string is whitespace. *)
Definition trimmed (s : string) : Prop :=
  (∀ a, first_char s = Some a → Py.isspace a = false)
  ∧ (∀ a, last_char s = Some a → Py.isspace a = false).

(** The line a callback prints when it is entered. *)
Definition announcement (ev : event) : option string :=
  match ev with
  | Redemption data =>
      Some ("Redemption received: " +:+ reward_title data +:+ " by "
              +:+ redeemer_name data)
  | Cheer data =>
      Some ("Cheer received: " +:+ Py.str_of_int (bits data) +:+ " bits by "
              +:+ or_else (user_name data) "Anonymous")
  | _ => None
  end.

(** The wire object of an upstream event, in the words of the wire format:
    a redemption is [{reward, user}], a cheer is
    [{type: cheer, user, beans, showText}]. *)
Definition wire_object (ev : event) : option json :=
  match ev with
  | Redemption data =>
      Some (JDict [("reward", JStr (reward_title data));
                   ("user", JStr (redeemer_name data))])
  | Cheer data =>
      Some (JDict [("type", JStr "cheer");
                   ("user", JStr (match user_name data with
                                  | Some u => if decide (u = EmptyString)
                                              then "Anonymous" else u
                                  | None => "Anonymous"
                                  end));
                   ("beans", JInt (2 * bits data));
                   ("showText", JBool (bool_decide (100 ≤ bits data)))])
  | _ => None
  end.

(** The keys of a JSON object. *)
Definition keys (v : json) : list string :=
  match v with
  | JDict items => items.*1
  | _ => []
  end.

(** The frames one broadcast of [payload] writes in world [w]: one for each
    registered connection whose transport is open. *)
Definition fan_out (payload : string) (w : world) : list action :=
  map (λ c, Frame c payload)
      (filter (λ c, c ∈ open_conns w) (elements (connected_clients w))).

(** The payloads of the broadcasts of an event sequence, in call order. *)
Definition payloads (evs : list event) : list string :=
  omap (λ ev, dumps <$> wire_object ev) evs.

(** The frames an event adds for one connection. *)
Definition delivered (c : conn) (ev : event) (w : world) : list string :=
  match wire_object ev with
  | Some v =>
      if decide (c ∈ connected_clients w ∧ c ∈ open_conns w)
      then [dumps v] else []
  | None => []
  end.

(** The deliveries of a whole run to one connection, event by event. *)
Fixpoint deliveries (c : conn) (evs : list event) (w : world) : list string :=
  match evs with
  | [] => []
  | ev :: rest => delivered c ev w ++ deliveries c rest (dispatch ev w).2
  end.

(* ===================================================================== *)
(** ** The parts of [main], and more vocabulary *)
(* ===================================================================== *)

Section Stages.

Context (ext : externals) (cfg : Config.t).

(** Lines 131 to 137 of [main]: try the saved tokens. *)
Definition saved_authentication (token refresh_token : json) : M json :=
  if truthy token && truthy refresh_token then
    try_except
      (twitch_set_user_authentication ext token refresh_token ;;
       print "Using saved authentication tokens." ;;
       mret token)
      is_Exception
      (λ e, let 'Exn _ msg := e in
            print ("Saved tokens failed (" +:+ msg
                     +:+ "), re-authenticating...") ;;
            mret JNull)
  else mret token.

(** Lines 139 to 145 of [main]: authenticate in the browser. *)
Definition interactive_authentication (token : json) : M unit :=
  if negb (truthy token) then
    print "Opening browser for Twitch authentication..." ;;
    emit Authenticate ;;
    let '(token, refresh_token) := authenticate ext in
    twitch_set_user_authentication ext (JStr token) (JStr refresh_token) ;;
    save_tokens (JStr token) (JStr refresh_token) ;;
    print "Authentication successful and tokens saved."
  else mret tt.

(** Lines 147 to 174 of [main]: look the channel up, subscribe, wait and
    shut down. *)
Definition subscribe_and_wait : M unit :=
  emit (GetUsers (Config.target_channel cfg)) ;;
  match head (get_users ext (Config.target_channel cfg)) with
  | None | Some EmptyString =>
      raise (Exn RuntimeError
               ("Could not find Twitch user for login: "
                  +:+ Config.target_channel cfg))
  | Some user_id =>
      print ("Listening for events on channel: " +:+ Config.target_channel cfg
               +:+ " (ID: " +:+ user_id +:+ ")") ;;
      emit EventSubStart ;;
      emit (ListenRedemption user_id) ;;
      emit (ListenCheer user_id) ;;
      print "EventSub connected! Waiting for beans (Points & Bits)..." ;;
      try_finally
        (try_except (await_future) is_CancelledError (λ _, print "Stopping..."))
        (emit EventSubStop ;; emit ServerClose ;; emit RunnerCleanup ;;
         emit TwitchClose)
  end.

(** Lines 119 to 174 of [main]: everything after the relay-only branch. *)
Definition twitch_part : M unit :=
  print "Connecting to Twitch..." ;;
  if negb (Py.str_truthy (Config.app_id cfg))
     || negb (Py.str_truthy (Config.app_secret cfg))
     || negb (Py.str_truthy (Config.target_channel cfg))
  then raise (Exn RuntimeError missing_configuration)
  else
    emit (TwitchInit (Config.app_id cfg) (Config.app_secret cfg)) ;;
    '(token, refresh_token) ← load_tokens ext;
    token ← saved_authentication token refresh_token;
    interactive_authentication token ;;
    subscribe_and_wait.

(** Lines 109 to 117 of [main]: the relay-only branch. *)
Definition relay_part : M unit :=
  print "Relay-only mode enabled; not connecting to Twitch." ;;
  try_finally
    (try_except (await_future) is_CancelledError (λ _, print "Stopping..."))
    (emit ServerClose) ;;
  mret tt.

End Stages.

(** [str(e)] of an exception. *)
Definition exn_msg (e : exn) : string := let 'Exn _ msg := e in msg.

(** The object [save_tokens] writes. *)
Definition tokens_object (token refresh_token : json) : json :=
  JDict [("token", token); ("refresh_token", refresh_token)].

(** The pair [load_tokens] finds in a world. *)
Definition saved_tokens (ext : externals) (w : world) : json * json :=
  match token_file w with
  | Content text =>
      match json_loads ext text with
      | Some (JDict items) =>
          (dict_get "token" items, dict_get "refresh_token" items)
      | _ => (JNull, JNull)
      end
  | _ => (JNull, JNull)
  end.

(** The three credentials are all there. *)
Definition credentials_present (cfg : Config.t) : bool :=
  Py.str_truthy (Config.app_id cfg) && Py.str_truthy (Config.app_secret cfg)
  && Py.str_truthy (Config.target_channel cfg).

(** The user id [main] subscribes with: the id of the first user the
    lookup yields, when it is not empty. *)
Definition target_user (ext : externals) (cfg : Config.t) : option string :=
  match head (get_users ext (Config.target_channel cfg)) with
  | Some (String a s) => Some (String a s)
  | _ => None
  end.

Definition could_not_find (cfg : Config.t) : exn :=
  Exn RuntimeError ("Could not find Twitch user for login: "
                      +:+ Config.target_channel cfg).

(** The actions of [main] by phase. *)
Definition relay_actions : list action :=
  [Print "Relay-only mode enabled; not connecting to Twitch.";
   AwaitFuture; Print "Stopping..."; ServerClose].

Definition subscription (cfg : Config.t) (user_id : string) : list action :=
  [Print ("Listening for events on channel: " +:+ Config.target_channel cfg
            +:+ " (ID: " +:+ user_id +:+ ")");
   EventSubStart;
   ListenRedemption user_id;
   ListenCheer user_id;
   Print "EventSub connected! Waiting for beans (Points & Bits)..."].

Definition draining : list action :=
  [AwaitFuture; Print "Stopping..."; EventSubStop; ServerClose; RunnerCleanup;
   TwitchClose].

(** The actions the authentication steps of [main] can take. *)
Definition is_auth_action (a : action) : bool :=
  match a with
  | Print _ | SetUserAuthentication _ _ | Authenticate => true
  | _ => false
  end.

(** The two ways [main] authenticates the user. *)
Definition authenticates (a : action) : bool :=
  match a with
  | SetUserAuthentication _ _ | Authenticate => true
  | _ => false
  end.

(** The events that run a part of [ws_handler]. *)
Definition is_connection_event (ev : event) : bool :=
  match ev with
  | Accept _ | Closed _ => true
  | _ => false
  end.



(* ===================================================================== *)
(** ** Concrete worlds and collaborators for the examples *)
(* ===================================================================== *)

(** A text written with apostrophes where the wire has double quotes. *)
Fixpoint wire_text (s : string) : string :=
  match s with
  | EmptyString => EmptyString
  | String a s' =>
      String (if Ascii.eqb a "'" then Json.dquote else a) (wire_text s')
  end.

Definition free_hug : redemption_event :=
  {| reward_title := "Free Hug"; redeemer_name := "alice" |}.

(** Three registered overlays; the transport of the second is closed. *)
Definition three_overlays : world :=
  {| connected_clients := {[1%nat; 2%nat; 3%nat]};
     open_conns := {[1%nat; 3%nat]};
     token_file := Absent;
     log := [] |}.

(** A Twitch client that accepts every token and knows one user. *)
Definition twitch_ok : externals :=
  {| json_loads := λ _, None;
     set_user_authentication := λ _ _, None;
     authenticate := ("access", "refresh");
     get_users := λ _, ["42"] |}.

(** What [main] does before it looks at the relay-only flag. *)
Definition binding (cfg : Config.t) : list action :=
  [Print ("Starting local relay server on port "
            +:+ Py.str_of_int (Config.local_ws_port cfg) +:+ "...");
   Serve "0.0.0.0" (Config.local_ws_port cfg);
   RunnerSetup;
   SiteStart "0.0.0.0" 8080;
   Print "Serving Overlay on http://0.0.0.0:8080"].

(** A parser that knows one text, for the examples. *)
Definition parse_saved (text : string) : option json :=
  if String.eqb text (wire_text "{'token': 'abc'}")
  then Some (JDict [("token", JStr "abc")])
  else None.

(** A configuration with the three credentials. *)
Definition with_credentials : Config.t :=
  Config.load {["TWITCH_APP_ID" := "id"; "TWITCH_APP_SECRET" := "secret";
                "TWITCH_TARGET_CHANNEL" := "pong"]} 8765.

(** The text [save_tokens] writes for the pair [twitch_ok] authenticates
    with, and a parser that reads it back. *)
Definition saved_text : string :=
  dumps (tokens_object (JStr "access") (JStr "refresh")).

Definition parse_tokens (text : string) : option json :=
  if String.eqb text saved_text
  then Some (tokens_object (JStr "access") (JStr "refresh"))
  else None.

Definition twitch_with_parser : externals :=
  {| json_loads := parse_tokens;
     set_user_authentication := λ _ _, None;
     authenticate := ("access", "refresh");
     get_users := λ _, ["42"] |}.

(** A Twitch client that has revoked the saved tokens and accepts the
    fresh ones. *)
Definition twitch_revoked : externals :=
  {| json_loads := λ _, Some (tokens_object (JStr "old") (JStr "older"));
     set_user_authentication := λ token _,
       match token with
       | JStr s => if String.eqb s "access" then None
                   else Some (Exn TwitchAPIException "invalid token")
       | _ => Some (Exn TwitchAPIException "invalid token")
       end;
     authenticate := ("access", "refresh");
     get_users := λ _, ["42"] |}.

(** A token file with a token and no refresh token. *)
Definition twitch_half_saved : externals :=
  {| json_loads := parse_saved;
     set_user_authentication := λ _ _, None;
     authenticate := ("access", "refresh");
     get_users := λ _, ["42"] |}.

(** A Twitch client that does not know the channel. *)
Definition twitch_unknown_channel : externals :=
  {| json_loads := λ _, None;
     set_user_authentication := λ _ _, None;
     authenticate := ("access", "refresh");
     get_users := λ _, [] |}.

(* ===================================================================== *)
(** ** Basic facts about worlds and the monad *)
(* ===================================================================== *)

Lemma with_log_id (w : world) : with_log (log w) w = w.
Proof. by destruct w. Qed.

Lemma with_log_with_log (l l' : list action) (w : world) :
  with_log l (with_log l' w) = with_log l w.
Proof. done. Qed.

Lemma with_log_app_nil (w : world) : with_log (log w ++ []) w = w.
Proof. rewrite app_nil_r. apply with_log_id. Qed.

Lemma frames_of_app (c : conn) (l1 l2 : list action) :
  frames_of c (l1 ++ l2) = frames_of c l1 ++ frames_of c l2.
Proof.
  induction l1 as [|a l1 IH]; [done|].
  destruct a; simpl; try apply IH.
  case_decide; simpl; by rewrite IH.
Qed.

Lemma dumped_app (l1 l2 : list action) :
  dumped (l1 ++ l2) = dumped l1 ++ dumped l2.
Proof.
  induction l1 as [|a l1 IH]; [done|].
  destruct a; simpl; by rewrite ?IH.
Qed.

Lemma dumped_frames (payload : string) (cs : list conn) :
  dumped (map (λ c, Frame c payload) cs) = [].
Proof. by induction cs. Qed.

Lemma frames_of_frames (c : conn) (payload : string) (cs : list conn) :
  NoDup cs →
  frames_of c (map (λ c', Frame c' payload) cs)
  = if decide (c ∈ cs) then [payload] else [].
Proof.
  induction 1 as [|c' cs Hc' Hnd IH]; [done|].
  simpl. rewrite IH. destruct (decide (c' = c)) as [->|Hne].
  - rewrite (decide_True (P := c ∈ c :: cs)) by apply list_elem_of_here.
    by rewrite decide_False.
  - destruct (decide (c ∈ cs)) as [Hin|Hin].
    + by rewrite decide_True by (by apply list_elem_of_further).
    + rewrite decide_False; [done|].
      intros [?|?]%elem_of_cons; congruence.
Qed.

Lemma frames_of_fan_out (c : conn) (payload : string) (w : world) :
  frames_of c (fan_out payload w)
  = if decide (c ∈ connected_clients w ∧ c ∈ open_conns w)
    then [payload] else [].
Proof.
  unfold fan_out. rewrite frames_of_frames.
  - destruct (decide (c ∈ connected_clients w ∧ c ∈ open_conns w)) as [[H1 H2]|Hn].
    + rewrite decide_True; [done|]. apply list_elem_of_filter. split; [done|].
      by apply elem_of_elements.
    + rewrite decide_False; [done|]. intros [H1 H2%elem_of_elements]%list_elem_of_filter.
      by apply Hn.
  - apply NoDup_filter, NoDup_elements.
Qed.

Lemma run_task_send (c : conn) (payload : string) (w : world) :
  run_task (send c payload) w
  = if decide (c ∈ open_conns w)
    then (Ok (Ok tt), with_log (log w ++ [Frame c payload]) w)
    else (Ok (Raise (Exn ConnectionClosed EmptyString)), w).
Proof. unfold run_task, send, emit. by case_decide. Qed.

(** Running the send tasks of one broadcast: every task ends, the frames of
    the open connections are written, and no exception leaves the wait. *)
Lemma asyncio_wait_send (payload : string) (cs : list conn) (w : world) :
  ∃ rs, asyncio_wait (map (λ client, send client payload) cs) w
        = (Ok rs,
           with_log (log w ++ map (λ c, Frame c payload)
                                  (filter (λ c, c ∈ open_conns w) cs)) w).
Proof.
  revert w. induction cs as [|c cs IH]; intros w.
  - exists []. simpl. by rewrite with_log_app_nil.
  - cbn [map asyncio_wait]. unfold mbind, M_bind.
    rewrite run_task_send.
    destruct (decide (c ∈ open_conns w)) as [Hc|Hc].
    + destruct (IH (with_log (log w ++ [Frame c payload]) w)) as [rs Hrs].
      exists (Ok tt :: rs). rewrite Hrs. simpl.
      rewrite filter_cons_True by done. simpl.
      by rewrite <- app_assoc.
    + destruct (IH w) as [rs Hrs].
      exists (Raise (Exn ConnectionClosed EmptyString) :: rs). rewrite Hrs. simpl.
      by rewrite filter_cons_False by done.
Qed.

(** *** [str.strip] trims, and trims only, the whitespace at both ends *)

Lemma append_cons (a : ascii) (s t : string) :
  String a s +:+ t = String a (s +:+ t).
Proof. done. Qed.

Lemma lstrip_decompose (s : string) :
  ∃ pre, s = pre +:+ Py.lstrip s ∧ all_space pre = true.
Proof.
  induction s as [|a s (pre & Hs & Hpre)]; [by exists EmptyString|].
  cbn [Py.lstrip]. destruct (Py.isspace a) eqn:Ha.
  - exists (String a pre). rewrite append_cons, <- Hs. split; [done|].
    cbn [all_space]. by rewrite Ha, Hpre.
  - by exists EmptyString.
Qed.

Lemma lstrip_first (s : string) (a : ascii) :
  first_char (Py.lstrip s) = Some a → Py.isspace a = false.
Proof.
  induction s as [|b s IH]; [done|]. cbn [Py.lstrip].
  destruct (Py.isspace b) eqn:Hb; [done|]. cbn [first_char]. congruence.
Qed.

Lemma rstrip_decompose (s : string) :
  ∃ post, s = Py.rstrip s +:+ post ∧ all_space post = true.
Proof.
  induction s as [|a s (post & Hs & Hpost)]; [by exists EmptyString|].
  cbn [Py.rstrip]. destruct (Py.rstrip s) as [|b r] eqn:Hr.
  - destruct (Py.isspace a) eqn:Ha.
    + exists (String a post). split; [by rewrite Hs at 1|].
      cbn [all_space]. by rewrite Ha, Hpost.
    + exists post. by rewrite Hs at 1.
  - exists post. split; [|done]. rewrite Hs at 1. done.
Qed.

Lemma rstrip_last (s : string) (a : ascii) :
  last_char (Py.rstrip s) = Some a → Py.isspace a = false.
Proof.
  revert a. induction s as [|b s IH]; [done|]. intros a. cbn [Py.rstrip].
  destruct (Py.rstrip s) as [|c r] eqn:Hr.
  - destruct (Py.isspace b) eqn:Hb; [done|]. cbn [last_char]. congruence.
  - change (last_char (String b (String c r)))
      with (match last_char (String c r) with None => Some b | Some x => Some x end).
    destruct (last_char (String c r)) as [x|] eqn:Hl.
    + intros [= ->]. by apply IH.
    + cbn [last_char] in Hl. by destruct (last_char r).
Qed.

Lemma rstrip_first (s : string) (a : ascii) :
  first_char (Py.rstrip s) = Some a → first_char s = Some a.
Proof.
  destruct s as [|b s]; [done|]. cbn [Py.rstrip].
  destruct (Py.rstrip s); [destruct (Py.isspace b)|]; done.
Qed.

(** [strip] cuts a string into leading whitespace, the result and
    trailing whitespace, and the result has no whitespace at either end. *)
Lemma strip_spec (s : string) :
  ∃ pre post,
    s = pre +:+ Py.strip s +:+ post
    ∧ all_space pre = true ∧ all_space post = true
    ∧ trimmed (Py.strip s).
Proof.
  destruct (lstrip_decompose s) as (pre & Hs & Hpre).
  destruct (rstrip_decompose (Py.lstrip s)) as (post & Ht & Hpost).
  exists pre, post. unfold Py.strip. split; [by rewrite <- Ht|].
  split; [done|]. split; [done|]. split.
  - intros a Ha%rstrip_first. by eapply lstrip_first.
  - intros a. apply rstrip_last.
Qed.

(** *** Stepping through a computation *)

Lemma bind_run {A B : Type} (m : M A) (k : A → M B) (w : world) :
  (m ≫= k) w
  = match m w with
    | (Ok a, w') => k a w'
    | (Raise e, w') => (Raise e, w')
    end.
Proof. done. Qed.

Lemma bind_mret {A B : Type} (a : A) (k : A → M B) (w : world) :
  (mret a ≫= k) w = k a w.
Proof. done. Qed.

Lemma bind_raise {A B : Type} (e : exn) (k : A → M B) (w : world) :
  (raise e ≫= k) w = (Raise e, w).
Proof. done. Qed.

Lemma bind_emit {B : Type} (a : action) (k : unit → M B) (w : world) :
  (emit a ≫= k) w = k tt (with_log (log w ++ [a]) w).
Proof. done. Qed.

Lemma bind_print {B : Type} (line : string) (k : unit → M B) (w : world) :
  (print line ≫= k) w = k tt (with_log (log w ++ [Print line]) w).
Proof. done. Qed.

Lemma bind_get_clients {B : Type} (k : gset conn → M B) (w : world) :
  (get_clients ≫= k) w = k (connected_clients w) w.
Proof. done. Qed.

Lemma bind_json_dumps {B : Type} (v : json) (k : string → M B) (w : world) :
  (json_dumps v ≫= k) w = k (dumps v) (with_log (log w ++ [Dumps v]) w).
Proof. done. Qed.

Lemma bind_assoc {A B C : Type} (m : M A) (k : A → M B) (h : B → M C) (w : world) :
  ((m ≫= k) ≫= h) w = (m ≫= λ a, k a ≫= h) w.
Proof. unfold mbind, M_bind. by destruct (m w) as [[a|e] w']. Qed.

(** The tail shared by the two callbacks: create one send task per
    registered connection and wait for all of them. *)
Lemma wait_for_sends (payload : string) (w : world) :
  match map (λ client, send client payload) (elements (connected_clients w)) with
  | [] => mret tt
  | _ :: _ =>
      asyncio_wait (map (λ client, send client payload)
                        (elements (connected_clients w))) ;; mret tt
  end w
  = (Ok tt, with_log (log w ++ fan_out payload w) w).
Proof.
  unfold fan_out.
  destruct (asyncio_wait_send payload (elements (connected_clients w)) w)
    as [rs Hrs].
  destruct (elements (connected_clients w)) as [|c cs] eqn:Hcs.
  - simpl. by rewrite with_log_app_nil.
  - cbn [map]. cbn [map] in Hrs. by rewrite bind_run, Hrs.
Qed.

(** The same tail when the world has since logged more: only the log
    differs from the world the registry was read in. *)
Lemma wait_for_sends_logged (payload : string) (l : list action) (w : world) :
  match map (λ client, send client payload) (elements (connected_clients w)) with
  | [] => mret tt
  | _ :: _ =>
      asyncio_wait (map (λ client, send client payload)
                        (elements (connected_clients w))) ;; mret tt
  end (with_log l w)
  = (Ok tt, with_log (l ++ fan_out payload w) w).
Proof. apply (wait_for_sends payload (with_log l w)). Qed.

Lemma on_redemption_run (data : redemption_event) (w : world) :
  let v := JDict [("reward", JStr (reward_title data));
                  ("user", JStr (redeemer_name data))] in
  on_redemption data w
  = (Ok tt,
     with_log
       (log w
          ++ Print ("Redemption received: " +:+ reward_title data +:+ " by "
                      +:+ redeemer_name data)
          :: (if decide (connected_clients w = ∅) then []
              else Dumps v :: fan_out (dumps v) w)) w).
Proof.
  intros v. unfold on_redemption. cbn zeta.
  rewrite bind_print, bind_get_clients. cbn [connected_clients with_log].
  destruct (decide (connected_clients w = ∅)) as [He|Hne].
  - by rewrite decide_False by (intros H; by apply H).
  - rewrite decide_True by done.
    rewrite bind_json_dumps. cbn [log with_log]. fold v.
    rewrite with_log_with_log, wait_for_sends_logged. by rewrite <- !app_assoc.
Qed.

Lemma on_cheer_run (data : cheer_event) (w : world) :
  let v := JDict [("type", JStr "cheer");
                  ("user", JStr (or_else (user_name data) "Anonymous"));
                  ("beans", JInt (bits data * 2));
                  ("showText", JBool (bits data >=? 100))] in
  on_cheer data w
  = (Ok tt,
     with_log
       (log w
          ++ Print ("Cheer received: " +:+ Py.str_of_int (bits data)
                      +:+ " bits by " +:+ or_else (user_name data) "Anonymous")
          :: (if decide (connected_clients w = ∅) then []
              else Dumps v :: fan_out (dumps v) w)) w).
Proof.
  intros v. unfold on_cheer. cbn zeta.
  rewrite bind_print, bind_get_clients. cbn [connected_clients with_log].
  destruct (decide (connected_clients w = ∅)) as [He|Hne].
  - by rewrite decide_False by (intros H; by apply H).
  - rewrite decide_True by done.
    rewrite bind_json_dumps. cbn [log with_log]. fold v.
    rewrite with_log_with_log, wait_for_sends_logged. by rewrite <- !app_assoc.
Qed.

Lemma or_else_anonymous (u : option string) :
  or_else u "Anonymous"
  = match u with
    | Some s => if decide (s = EmptyString) then "Anonymous" else s
    | None => "Anonymous"
    end.
Proof. destruct u as [[|a s]|]; done. Qed.

Lemma geb_100 (b : Z) : (b >=? 100) = bool_decide (100 ≤ b).
Proof.
  rewrite Z.geb_leb. destruct (Z.leb_spec 100 b).
  - by rewrite bool_decide_eq_true_2.
  - rewrite bool_decide_eq_false_2; [done|lia].
Qed.

(** What an upstream event does, in terms of its wire object: the callback
    prints its line and, when some connection is registered, serialises the
    object once and fans the text out. *)
Lemma dispatch_upstream (ev : event) (v : json) (w : world) :
  wire_object ev = Some v →
  ∃ line,
    announcement ev = Some line ∧
    dispatch ev w
    = (Ok tt,
       with_log (log w ++ Print line
                   :: (if decide (connected_clients w = ∅) then []
                       else Dumps v :: fan_out (dumps v) w)) w).
Proof.
  destruct ev as [c|c|c|data|data]; simpl; intros Hv; simplify_eq.
  - eexists; split; [done|]. apply on_redemption_run.
  - eexists; split; [done|]. rewrite on_cheer_run. cbn zeta.
    by rewrite or_else_anonymous, geb_100, (Z.mul_comm (bits data) 2).
Qed.

Lemma dumped_broadcast (line : string) (v : json) (w : world) :
  dumped (log w ++ Print line
            :: (if decide (connected_clients w = ∅) then []
                else Dumps v :: fan_out (dumps v) w))
  = dumped (log w) ++ (if decide (connected_clients w = ∅) then [] else [v]).
Proof.
  rewrite dumped_app. f_equal. simpl. case_decide; [done|].
  simpl. unfold fan_out. by rewrite dumped_frames.
Qed.

Lemma frames_of_broadcast (c : conn) (line : string) (v : json) (w : world) :
  frames_of c (log w ++ Print line
                 :: (if decide (connected_clients w = ∅) then []
                     else Dumps v :: fan_out (dumps v) w))
  = frames_of c (log w)
      ++ (if decide (c ∈ connected_clients w ∧ c ∈ open_conns w)
          then [dumps v] else []).
Proof.
  rewrite frames_of_app. f_equal. simpl.
  destruct (decide (connected_clients w = ∅)) as [He|Hne].
  - rewrite decide_False; [done|]. rewrite He. intros [[]%not_elem_of_empty _].
  - simpl. apply frames_of_fan_out.
Qed.

(* ===================================================================== *)
(** ** The event callbacks: payloads and fan-out *)
(* ===================================================================== *)

(** C1. For every cheer event with bit count [b] and optional user name
    [u], [on_cheer] returns normally and, whenever a connection is
    registered, serialises exactly one object,
    [{type: cheer, user: u', beans: 2*b, showText: (b >= 100)}], whose text
    is the frame written to every registered connection with an open
    transport.  [u'] is [u] when a user name is present and ["Anonymous"]
    otherwise; the code tests presence with Python's [or], so an empty name
    counts as no name. *)
Theorem on_cheer_payload (data : cheer_event) (w : world) :
  let u' := match user_name data with
            | Some u => if decide (u = EmptyString) then "Anonymous" else u
            | None => "Anonymous"
            end in
  let v := JDict [("type", JStr "cheer"); ("user", JStr u');
                  ("beans", JInt (2 * bits data));
                  ("showText", JBool (bool_decide (100 ≤ bits data)))] in
  (on_cheer data w).1 = Ok tt
  ∧ dumped (log (on_cheer data w).2)
    = dumped (log w) ++ (if decide (connected_clients w = ∅) then [] else [v])
  ∧ ∀ c, frames_of c (log (on_cheer data w).2)
         = frames_of c (log w)
             ++ (if decide (c ∈ connected_clients w ∧ c ∈ open_conns w)
                 then [dumps v] else []).
Proof.
  intros u' v.
  destruct (dispatch_upstream (Cheer data) v w eq_refl) as (line & _ & Hrun).
  simpl in Hrun. rewrite Hrun. cbn [fst snd log with_log].
  split; [done|]. split.
  - apply dumped_broadcast.
  - intros c. apply frames_of_broadcast.
Qed.

(** C6. For every redemption event with reward title [r] and user name
    [u], the object [on_redemption] serialises is exactly
    [{reward: r, user: u}]: two keys, none of them ["type"]; its text is
    what every registered connection with an open transport is sent. *)
Theorem on_redemption_payload (data : redemption_event) (w : world) :
  let v := JDict [("reward", JStr (reward_title data));
                  ("user", JStr (redeemer_name data))] in
  (on_redemption data w).1 = Ok tt
  ∧ dumped (log (on_redemption data w).2)
    = dumped (log w) ++ (if decide (connected_clients w = ∅) then [] else [v])
  ∧ (∀ c, frames_of c (log (on_redemption data w).2)
          = frames_of c (log w)
              ++ (if decide (c ∈ connected_clients w ∧ c ∈ open_conns w)
                  then [dumps v] else []))
  ∧ keys v = ["reward"; "user"]
  ∧ "type" ∉ keys v.
Proof.
  intros v. rewrite on_redemption_run. cbn [fst snd log with_log].
  split; [done|]. split; [apply dumped_broadcast|].
  split; [intros c; apply frames_of_broadcast|].
  split; [done|]. subst v. cbn [keys fmap list_fmap fst].
  rewrite !elem_of_cons, elem_of_nil. by intros [?|[?|?]].
Qed.

(** The normalisation examples of the specification, run on the code. *)
Example cheer_of_50_bits :
  dumped (log (on_cheer {| bits := 50; user_name := Some "bob" |} three_overlays).2)
  = [JDict [("type", JStr "cheer"); ("user", JStr "bob");
            ("beans", JInt 100); ("showText", JBool false)]].
Proof. by vm_compute. Qed.

Example cheer_of_100_bits :
  dumped (log (on_cheer {| bits := 100; user_name := Some "bob" |} three_overlays).2)
  = [JDict [("type", JStr "cheer"); ("user", JStr "bob");
            ("beans", JInt 200); ("showText", JBool true)]].
Proof. by vm_compute. Qed.

Example cheer_without_name_on_the_wire :
  let w' := (on_cheer {| bits := 10; user_name := None |} three_overlays).2 in
  let text :=
    wire_text "{'type': 'cheer', 'user': 'Anonymous', 'beans': 20, 'showText': false}" in
  frames_of 1%nat (log w') = [text] ∧ frames_of 3%nat (log w') = [text].
Proof. by vm_compute. Qed.

Example cheer_with_empty_name :
  dumped (log (on_cheer {| bits := 1; user_name := Some EmptyString |}
                 three_overlays).2)
  = [JDict [("type", JStr "cheer"); ("user", JStr "Anonymous");
            ("beans", JInt 2); ("showText", JBool false)]].
Proof. by vm_compute. Qed.

Example free_hug_on_the_wire :
  frames_of 3%nat (log (on_redemption free_hug three_overlays).2)
  = [wire_text "{'reward': 'Free Hug', 'user': 'alice'}"].
Proof. by vm_compute. Qed.

(** C5. When no connection is registered at the time of a broadcast, the
    callback only prints its line and returns: [json.dumps] is not called,
    no frame is written and the world is otherwise unchanged. *)
Theorem broadcast_without_clients (w : world) :
  connected_clients w = ∅ →
  (∀ data, on_redemption data w
           = (Ok tt,
              with_log (log w ++ [Print ("Redemption received: "
                                           +:+ reward_title data +:+ " by "
                                           +:+ redeemer_name data)]) w))
  ∧ (∀ data, on_cheer data w
             = (Ok tt,
                with_log (log w ++ [Print ("Cheer received: "
                                             +:+ Py.str_of_int (bits data)
                                             +:+ " bits by "
                                             +:+ or_else (user_name data)
                                                   "Anonymous")]) w))
  ∧ (∀ ev v, wire_object ev = Some v →
             dumped (log (dispatch ev w).2) = dumped (log w)
             ∧ ∀ c, frames_of c (log (dispatch ev w).2) = frames_of c (log w)).
Proof.
  intros He. split; [|split].
  - intros data. rewrite on_redemption_run. cbn zeta. by rewrite decide_True.
  - intros data. rewrite on_cheer_run. cbn zeta. by rewrite decide_True.
  - intros ev v Hv. destruct (dispatch_upstream ev v w Hv) as (line & _ & ->).
    cbn [snd log with_log]. rewrite decide_True by done. split.
    + rewrite dumped_app. simpl. by rewrite app_nil_r.
    + intros c. rewrite frames_of_app. simpl. by rewrite app_nil_r.
Qed.

Lemma broadcast_without_clients_witness :
  connected_clients world0 = ∅
  ∧ on_cheer {| bits := 10; user_name := None |} world0
    = (Ok tt, with_log [Print "Cheer received: 10 bits by Anonymous"] world0).
Proof.
  split; [reflexivity|].
  exact (proj1 (proj2 (broadcast_without_clients world0 eq_refl))
           {| bits := 10; user_name := None |}).
Defined.

(* ===================================================================== *)
(** ** The registry: [connected_clients] *)
(* ===================================================================== *)

Lemma ws_handler_connected_run (c : conn) (w : world) :
  ws_handler_connected c w
  = (Ok tt,
     with_log (log w ++ [Print ("Overlay connected! (Total: "
                                  +:+ Py.str_of_nat
                                        (size ({[c]} ∪ connected_clients w))
                                  +:+ ")")])
              (with_clients ({[c]} ∪ connected_clients w) w)).
Proof. done. Qed.

Lemma ws_handler_closed_run (c : conn) (w : world) :
  ws_handler_closed c w
  = if decide (c ∈ connected_clients w)
    then (Ok tt,
          with_log (log w ++ [Print ("Overlay disconnected. (Total: "
                                       +:+ Py.str_of_nat
                                             (size (connected_clients w ∖ {[c]}))
                                       +:+ ")")])
                   (with_clients (connected_clients w ∖ {[c]}) w))
    else (Raise (Exn KeyError (conn_repr c)), w).
Proof.
  unfold ws_handler_closed. rewrite bind_run. unfold set_remove.
  by destruct (decide (c ∈ connected_clients w)).
Qed.

Lemma dispatch_frames (c : conn) (ev : event) (w : world) :
  frames_of c (log (dispatch ev w).2) = frames_of c (log w) ++ delivered c ev w.
Proof.
  unfold delivered. destruct (wire_object ev) as [v|] eqn:Hv.
  - destruct (dispatch_upstream ev v w Hv) as (line & _ & ->).
    cbn [snd log with_log]. apply frames_of_broadcast.
  - destruct ev as [c0|c0|c0|data|data]; try discriminate; cbn [dispatch].
    + rewrite bind_run. unfold transport_open. rewrite ws_handler_connected_run.
      cbn [snd log with_log with_open with_clients]. rewrite frames_of_app.
      done.
    + unfold transport_close. cbn [snd log with_open]. by rewrite app_nil_r.
    + rewrite ws_handler_closed_run. case_decide.
      * cbn [snd log with_log with_clients]. by rewrite frames_of_app.
      * cbn [snd]. by rewrite app_nil_r.
Qed.

(** Neither callback touches the registry or the transports. *)
Lemma dispatch_upstream_registry (ev : event) (v : json) (w : world) :
  wire_object ev = Some v →
  connected_clients (dispatch ev w).2 = connected_clients w
  ∧ open_conns (dispatch ev w).2 = open_conns w.
Proof.
  intros Hv. by destruct (dispatch_upstream ev v w Hv) as (line & _ & ->).
Qed.

Lemma run_frames (c : conn) (evs : list event) (w : world) :
  frames_of c (log (run evs w)) = frames_of c (log w) ++ deliveries c evs w.
Proof.
  revert w. induction evs as [|ev evs IH]; intros w; simpl.
  - by rewrite app_nil_r.
  - by rewrite IH, dispatch_frames, <- app_assoc.
Qed.

Lemma deliveries_sublist (c : conn) (evs : list event) (w : world) :
  sublist (deliveries c evs w) (payloads evs).
Proof.
  revert w. induction evs as [|ev evs IH]; intros w; simpl; [constructor|].
  unfold payloads, delivered. simpl.
  destruct (wire_object ev) as [v|]; simpl; [|apply IH].
  case_decide; simpl.
  - apply sublist_skip, IH.
  - apply sublist_cons, IH.
Qed.

Lemma dispatch_registry (ev : event) (w : world) :
  connected_clients (dispatch ev w).2
  = match ev with
    | Accept c => {[c]} ∪ connected_clients w
    | Closed c => connected_clients w ∖ {[c]}
    | _ => connected_clients w
    end.
Proof.
  destruct ev as [c|c|c|data|data]; cbn [dispatch].
  - rewrite bind_run. unfold transport_open. by rewrite ws_handler_connected_run.
  - done.
  - rewrite ws_handler_closed_run. case_decide; [done|].
    cbn [snd]. apply set_eq. intros x.
    rewrite elem_of_difference, elem_of_singleton. split; [|by intros [? _]].
    intros Hx. split; [done|]. by intros ->.
  - by rewrite on_redemption_run.
  - by rewrite on_cheer_run.
Qed.

Lemma run_app (evs1 evs2 : list event) (w : world) :
  run (evs1 ++ evs2) w = run evs2 (run evs1 w).
Proof. revert w. induction evs1 as [|ev evs1 IH]; intros w; [done|]. apply IH. Qed.






(* ===================================================================== *)
(** ** Broadcasts: failure isolation and ordering *)
(* ===================================================================== *)

(** C2. A failed send stays local.  When a broadcast runs over the
    registered connections and the send to one of them fails, the
    callback still returns normally and every other connection whose send
    succeeds gets the payload exactly once; the connection whose send
    failed gets nothing, and it is absent from the registry once the
    [finally] block of its own [ws_handler] has run (the callback itself
    does not touch the registry, so until then it is still a member). *)
Theorem broadcast_isolates_failures (ev : event) (v : json) (w : world) :
  wire_object ev = Some v →
  (dispatch ev w).1 = Ok tt
  ∧ connected_clients (dispatch ev w).2 = connected_clients w
  ∧ (∀ c, c ∈ connected_clients w → c ∈ open_conns w →
          frames_of c (log (dispatch ev w).2) = frames_of c (log w) ++ [dumps v])
  ∧ (∀ c, c ∈ connected_clients w → c ∉ open_conns w →
          frames_of c (log (dispatch ev w).2) = frames_of c (log w)
          ∧ c ∈ connected_clients (dispatch ev w).2
          ∧ c ∉ connected_clients (dispatch (Closed c) (dispatch ev w).2).2).
Proof.
  intros Hv.
  destruct (dispatch_upstream_registry ev v w Hv) as [Hreg Hopen].
  pose proof (λ c, dispatch_frames c ev w) as Hfr.
  unfold delivered in Hfr. rewrite Hv in Hfr.
  destruct (dispatch_upstream ev v w Hv) as (line & _ & Hrun).
  split; [by rewrite Hrun|]. split; [done|]. split.
  - intros c Hc Ho. rewrite Hfr. by rewrite decide_True.
  - intros c Hc Ho. split; [|split].
    + rewrite Hfr, decide_False; [by rewrite app_nil_r|]. by intros [_ ?].
    + by rewrite Hreg.
    + cbn [dispatch]. rewrite ws_handler_closed_run, decide_True by by rewrite Hreg.
      cbn [snd connected_clients with_log with_clients].
      rewrite elem_of_difference, elem_of_singleton. by intros [_ ?].
Qed.

Lemma broadcast_isolates_failures_witness :
  wire_object (Redemption free_hug)
  = Some (JDict [("reward", JStr "Free Hug"); ("user", JStr "alice")])
  ∧ connected_clients (dispatch (Redemption free_hug) three_overlays).2
    = connected_clients three_overlays.
Proof.
  split; [reflexivity|].
  exact (proj1 (proj2 (broadcast_isolates_failures (Redemption free_hug) _
                         three_overlays eq_refl))).
Defined.

(** C7. Broadcasts reach each connection in the order in which the
    callbacks were called.  For every run of events and every connection,
    the frames the run writes to that connection are a subsequence, in
    order, of the payloads of the run's broadcasts; and when a connection
    that is registered and open receives two successive broadcasts, the
    first payload is delivered before the second.  Nothing is said about
    the order between different connections. *)
Theorem per_connection_order :
  (∀ (evs : list event) (w : world) (c : conn),
     ∃ received,
       frames_of c (log (run evs w)) = frames_of c (log w) ++ received
       ∧ sublist received (payloads evs))
  ∧ (∀ (e1 e2 : event) (v1 v2 : json) (w : world) (c : conn),
       wire_object e1 = Some v1 → wire_object e2 = Some v2 →
       c ∈ connected_clients w → c ∈ open_conns w →
       frames_of c (log (run [e1; e2] w))
       = frames_of c (log w) ++ [dumps v1; dumps v2]).
Proof.
  split.
  - intros evs w c. exists (deliveries c evs w). split.
    + apply run_frames.
    + apply deliveries_sublist.
  - intros e1 e2 v1 v2 w c Hv1 Hv2 Hc Ho.
    rewrite run_frames. f_equal. cbn [deliveries]. unfold delivered.
    rewrite Hv1, Hv2.
    destruct (dispatch_upstream_registry e1 v1 w Hv1) as [-> ->].
    by rewrite !decide_True.
Qed.

Lemma per_connection_order_witness :
  let cheer := {| bits := 100; user_name := Some "bob" |} in
  wire_object (Redemption free_hug)
  = Some (JDict [("reward", JStr "Free Hug"); ("user", JStr "alice")])
  ∧ wire_object (Cheer cheer)
    = Some (JDict [("type", JStr "cheer"); ("user", JStr "bob");
                   ("beans", JInt 200); ("showText", JBool true)])
  ∧ 3%nat ∈ connected_clients three_overlays
  ∧ 3%nat ∈ open_conns three_overlays
  ∧ frames_of 3%nat (log (run [Redemption free_hug; Cheer cheer] three_overlays))
    = frames_of 3%nat (log three_overlays)
        ++ [dumps (JDict [("reward", JStr "Free Hug"); ("user", JStr "alice")]);
            dumps (JDict [("type", JStr "cheer"); ("user", JStr "bob");
                          ("beans", JInt 200); ("showText", JBool true)])].
Proof.
  cbn zeta.
  assert (3%nat ∈ connected_clients three_overlays) as H1
    by (apply elem_of_union_r, elem_of_singleton; reflexivity).
  assert (3%nat ∈ open_conns three_overlays) as H2
    by (apply elem_of_union_r, elem_of_singleton; reflexivity).
  split; [reflexivity|]. split; [reflexivity|].
  split; [exact H1|]. split; [exact H2|].
  exact (proj2 per_connection_order (Redemption free_hug)
           (Cheer {| bits := 100; user_name := Some "bob" |}) _ _
           three_overlays 3%nat eq_refl eq_refl H1 H2).
Defined.

(* ===================================================================== *)
(** ** [main]: start-up and shutdown *)
(* ===================================================================== *)

(** The steps of [main] up to the test of the relay-only flag. *)
Ltac main_binding :=
  unfold main; cbn zeta;
  rewrite bind_print, !bind_emit, bind_print;
  rewrite !with_log_with_log; cbn [log with_log].

(** C8. In relay-only mode [main] needs no credentials: whatever the
    configured credentials (none, for instance) it binds the connection
    listener and the HTTP endpoint, waits for cancellation, closes the
    listener and returns normally; neither before nor after the wait does
    it take any step towards the upstream platform.  While it waits, an
    overlay that connects is registered. *)
Theorem relay_only_startup (ext : externals) (cfg : Config.t) (w : world) :
  Config.relay_only cfg = true →
  let startup :=
    binding cfg ++ [Print "Relay-only mode enabled; not connecting to Twitch."] in
  let shutdown := [Print "Stopping..."; ServerClose] in
  main ext cfg w
  = (Ok tt, with_log (log w ++ startup ++ AwaitFuture :: shutdown) w)
  ∧ Serve "0.0.0.0" (Config.local_ws_port cfg) ∈ startup
  ∧ Forall (λ a, is_upstream a = false) (startup ++ AwaitFuture :: shutdown)
  ∧ ∀ (c : conn) (w' : world), c ∈ connected_clients (dispatch (Accept c) w').2.
Proof.
  intros Hrelay startup shutdown. split; [|split; [|split]].
  - main_binding. rewrite Hrelay.
    rewrite bind_print, bind_run. unfold try_finally, try_except, await_future.
    rewrite bind_emit. unfold raise. cbn [is_CancelledError].
    unfold print, emit. cbn [log with_log mret M_ret].
    subst startup shutdown. unfold binding. by rewrite <- !app_assoc.
  - subst startup. unfold binding. apply list_elem_of_further, list_elem_of_here.
  - subst startup shutdown. unfold binding. by repeat constructor.
  - intros c w'. cbn [dispatch]. rewrite bind_run. unfold transport_open.
    rewrite ws_handler_connected_run. cbn [snd connected_clients with_log with_clients].
    apply elem_of_union_l. by apply elem_of_singleton.
Qed.

Lemma relay_only_startup_witness :
  let cfg := Config.load {["BDS_RELAY_ONLY" := "1"]} 8765 in
  Config.relay_only cfg = true
  ∧ Config.app_id cfg = EmptyString
  ∧ Config.app_secret cfg = EmptyString
  ∧ Config.target_channel cfg = EmptyString
  ∧ main twitch_ok cfg world0
    = (Ok tt,
       with_log
         (log world0
            ++ (binding cfg
                  ++ [Print "Relay-only mode enabled; not connecting to Twitch."])
            ++ AwaitFuture :: [Print "Stopping..."; ServerClose]) world0).
Proof.
  cbn zeta. repeat (split; [reflexivity|]).
  exact (proj1 (relay_only_startup twitch_ok
                  (Config.load {["BDS_RELAY_ONLY" := "1"]} 8765) world0 eq_refl)).
Defined.

(** C3 (as the code has it). With relay-only mode off and one of the
    application id, the application secret or the target channel missing,
    [main] fails with [RuntimeError] before it takes any step towards the
    upstream platform, but after it has bound the connection listener and
    the HTTP endpoint; it does not close them on that path. *)
Theorem missing_configuration_is_fatal (ext : externals) (cfg : Config.t)
    (w : world) :
  Config.relay_only cfg = false →
  Config.app_id cfg = EmptyString ∨ Config.app_secret cfg = EmptyString
    ∨ Config.target_channel cfg = EmptyString →
  let done_before := binding cfg ++ [Print "Connecting to Twitch..."] in
  main ext cfg w
  = (Raise (Exn RuntimeError missing_configuration),
     with_log (log w ++ done_before) w)
  ∧ filter (λ a, is_bind a = true) done_before
    = [Serve "0.0.0.0" (Config.local_ws_port cfg); SiteStart "0.0.0.0" 8080]
  ∧ Forall (λ a, is_upstream a = false) done_before
  ∧ ServerClose ∉ done_before.
Proof.
  intros Hrelay Hmissing done_before. split; [|split; [|split]].
  - main_binding. rewrite Hrelay. rewrite bind_print.
    assert (negb (Py.str_truthy (Config.app_id cfg))
            || negb (Py.str_truthy (Config.app_secret cfg))
            || negb (Py.str_truthy (Config.target_channel cfg)) = true) as ->.
    { destruct Hmissing as [-> | [-> | ->]]; simpl;
        rewrite ?orb_true_r; reflexivity. }
    unfold raise. cbn [log with_log]. rewrite with_log_with_log.
    subst done_before. unfold binding. by rewrite <- !app_assoc.
  - done.
  - subst done_before. unfold binding. by repeat constructor.
  - subst done_before. unfold binding. cbn [app].
    rewrite !elem_of_cons, elem_of_nil. intros H.
    repeat (destruct H as [H|H]; [discriminate H|]). done.
Qed.

Lemma missing_configuration_is_fatal_witness :
  let cfg := Config.load {["TWITCH_APP_ID" := "abc"]} 8765 in
  Config.relay_only cfg = false
  ∧ (Config.app_id cfg = EmptyString ∨ Config.app_secret cfg = EmptyString
     ∨ Config.target_channel cfg = EmptyString)
  ∧ main twitch_ok cfg world0
    = (Raise (Exn RuntimeError missing_configuration),
       with_log (log world0 ++ binding cfg ++ [Print "Connecting to Twitch..."])
                world0).
Proof.
  cbn zeta.
  assert (Config.app_id (Config.load {["TWITCH_APP_ID" := "abc"]} 8765) = EmptyString
          ∨ Config.app_secret (Config.load {["TWITCH_APP_ID" := "abc"]} 8765)
            = EmptyString
          ∨ Config.target_channel (Config.load {["TWITCH_APP_ID" := "abc"]} 8765)
            = EmptyString) as H by (right; left; reflexivity).
  split; [reflexivity|]. split; [exact H|].
  exact (proj1 (missing_configuration_is_fatal twitch_ok
                  (Config.load {["TWITCH_APP_ID" := "abc"]} 8765) world0
                  eq_refl H)).
Defined.

(** C3, refuted as stated: with no credentials and relay-only mode off,
    both listening endpoints are bound by the time [main] raises, and
    [main] has not closed the listener. *)
Lemma listener_bound_when_configuration_fails :
  let cfg := Config.load ∅ 8765 in
  let run := main twitch_ok cfg world0 in
  Config.relay_only cfg = false
  ∧ run.1 = Raise (Exn RuntimeError missing_configuration)
  ∧ log run.2
    = [Print "Starting local relay server on port 8765...";
       Serve "0.0.0.0" 8765;
       RunnerSetup;
       SiteStart "0.0.0.0" 8080;
       Print "Serving Overlay on http://0.0.0.0:8080";
       Print "Connecting to Twitch..."]
  ∧ existsb is_bind (log run.2) = true.
Proof. cbn zeta. repeat split; by vm_compute. Qed.

(* ===================================================================== *)
(** ** Saved tokens *)
(* ===================================================================== *)

Lemma dict_get_missing (key : string) (items : list (string * json)) :
  key ∉ items.*1 → dict_get key items = JNull.
Proof.
  induction items as [|[k v] items IH]; [done|].
  cbn [dict_get fmap list_fmap fst]. rewrite not_elem_of_cons. intros [Hne Hin].
  destruct (String.eqb_spec k key) as [->|_]; [done|]. by apply IH.
Qed.

Lemma dict_get_bound (key : string) (v : json) (items : list (string * json)) :
  NoDup items.*1 → (key, v) ∈ items → dict_get key items = v.
Proof.
  induction items as [|[k v'] items IH]; [by intros _ ?%elem_of_nil|].
  cbn [dict_get fmap list_fmap fst]. rewrite NoDup_cons, elem_of_cons.
  intros [Hk Hnd] [Heq|Hin].
  - simplify_eq. by rewrite String.eqb_refl.
  - destruct (String.eqb_spec k key) as [->|_]; [|by apply IH].
    exfalso. apply Hk. apply list_elem_of_fmap. by exists (key, v).
Qed.

(** C9. [load_tokens] never raises and changes nothing.  It returns
    [(None, None)] when the token file is absent, when it cannot be read,
    when its text is not JSON, and when the JSON is not an object; when
    the file holds a JSON object it returns what the object binds to
    ["token"] and to ["refresh_token"], with [None] for a key the object
    does not have. *)
Theorem load_tokens_never_raises (ext : externals) (w : world) :
  load_tokens ext w
  = (Ok match token_file w with
        | Content text =>
            match json_loads ext text with
            | Some (JDict items) =>
                (dict_get "token" items, dict_get "refresh_token" items)
            | _ => (JNull, JNull)
            end
        | _ => (JNull, JNull)
        end, w)
  ∧ (token_file w = Absent → load_tokens ext w = (Ok (JNull, JNull), w))
  ∧ (token_file w = Unreadable → load_tokens ext w = (Ok (JNull, JNull), w))
  ∧ (∀ text, token_file w = Content text → json_loads ext text = None →
             load_tokens ext w = (Ok (JNull, JNull), w))
  ∧ (∀ text items, token_file w = Content text →
                   json_loads ext text = Some (JDict items) →
                   load_tokens ext w
                   = (Ok (dict_get "token" items, dict_get "refresh_token" items), w))
  ∧ (∀ key items, key ∉ items.*1 → dict_get key items = JNull)
  ∧ (∀ key v items, NoDup items.*1 → (key, v) ∈ items → dict_get key items = v).
Proof.
  assert (load_tokens ext w
          = (Ok match token_file w with
                | Content text =>
                    match json_loads ext text with
                    | Some (JDict items) =>
                        (dict_get "token" items, dict_get "refresh_token" items)
                    | _ => (JNull, JNull)
                    end
                | _ => (JNull, JNull)
                end, w)) as Hrun.
  { unfold load_tokens. rewrite bind_run. unfold path_exists, try_except.
    destruct (token_file w) as [| |text] eqn:Hfile; [done| |];
      cbn [negb]; rewrite bind_run; unfold read_json; rewrite Hfile; [done|].
    destruct (json_loads ext text) as [[]|]; done. }
  split; [exact Hrun|]. rewrite Hrun.
  split; [by intros ->|]. split; [by intros ->|].
  split; [by intros text -> ->|]. split; [by intros text items -> ->|].
  split; [apply dict_get_missing|apply dict_get_bound].
Qed.

Lemma load_tokens_never_raises_witness :
  let ext := {| json_loads := parse_saved;
                set_user_authentication := λ _ _, None;
                authenticate := ("access", "refresh");
                get_users := λ _, [] |} in
  let text := wire_text "{'token': 'abc'}" in
  let w := with_token_file (Content text) world0 in
  token_file w = Content text
  ∧ json_loads ext text = Some (JDict [("token", JStr "abc")])
  ∧ load_tokens ext w = (Ok (JStr "abc", JNull), w).
Proof.
  cbn zeta. split; [reflexivity|]. split; [reflexivity|].
  exact (proj1 (proj2 (proj2 (proj2 (proj2
           (load_tokens_never_raises
              {| json_loads := parse_saved;
                 set_user_authentication := λ _ _, None;
                 authenticate := ("access", "refresh");
                 get_users := λ _, [] |}
              (with_token_file (Content (wire_text "{'token': 'abc'}")) world0))))))
           (wire_text "{'token': 'abc'}") [("token", JStr "abc")] eq_refl eq_refl).
Defined.

(* ===================================================================== *)
(** ** The boolean flags *)
(* ===================================================================== *)

Lemma str_in_truthy_words (v : string) :
  Py.str_in v ["1"; "true"; "yes"; "on"] = true
  ↔ v = "1" ∨ v = "true" ∨ v = "yes" ∨ v = "on".
Proof.
  unfold Py.str_in. cbn [existsb]. rewrite !orb_true_iff, !String.eqb_eq.
  intuition discriminate.
Qed.

(** C10. Each boolean flag is on exactly when the value of its environment
    variable (the empty string when the variable is unset), stripped of
    surrounding whitespace and lowercased, is one of ["1"], ["true"],
    ["yes"] and ["on"]; an unset or empty variable gives [false].  The
    stripping removes whitespace at the two ends of the value and nothing
    else. *)
Theorem flags_truthy_words (environ : gmap string string) :
  let value key := Py.lower (Py.strip (default EmptyString (environ !! key))) in
  let truthy_word v := v = "1" ∨ v = "true" ∨ v = "yes" ∨ v = "on" in
  (Config.BDS_RELAY_ONLY environ = true ↔ truthy_word (value "BDS_RELAY_ONLY"))
  ∧ (Config.BDS_DEBUG environ = true ↔ truthy_word (value "BDS_DEBUG"))
  ∧ (Config.BDS_RELAY_ONLY environ = false ↔ ¬ truthy_word (value "BDS_RELAY_ONLY"))
  ∧ (Config.BDS_DEBUG environ = false ↔ ¬ truthy_word (value "BDS_DEBUG"))
  ∧ (default EmptyString (environ !! "BDS_RELAY_ONLY") = EmptyString →
     Config.BDS_RELAY_ONLY environ = false)
  ∧ (default EmptyString (environ !! "BDS_DEBUG") = EmptyString →
     Config.BDS_DEBUG environ = false)
  ∧ (∀ key, ∃ pre post,
       default EmptyString (environ !! key)
       = pre +:+ Py.strip (default EmptyString (environ !! key)) +:+ post
       ∧ all_space pre = true ∧ all_space post = true
       ∧ trimmed (Py.strip (default EmptyString (environ !! key)))).
Proof.
  intros value truthy_word.
  unfold Config.BDS_RELAY_ONLY, Config.BDS_DEBUG, Config.getenv.
  split; [apply str_in_truthy_words|]. split; [apply str_in_truthy_words|].
  split; [rewrite <- not_true_iff_false; apply not_iff_compat, str_in_truthy_words|].
  split; [rewrite <- not_true_iff_false; apply not_iff_compat, str_in_truthy_words|].
  split; [by intros ->|]. split; [by intros ->|].
  intros key. apply strip_spec.
Qed.

Lemma flags_truthy_words_witness :
  default EmptyString ((∅ : gmap string string) !! "BDS_RELAY_ONLY") = EmptyString
  ∧ Config.BDS_RELAY_ONLY ∅ = false.
Proof.
  split; [reflexivity|].
  exact (proj1 (proj2 (proj2 (proj2 (proj2 (flags_truthy_words ∅))))) eq_refl).
Defined.

Example relay_only_mixed_case :
  Config.BDS_RELAY_ONLY {["BDS_RELAY_ONLY" := "  YeS "]} = true.
Proof. by vm_compute. Qed.

Example relay_only_other_number :
  Config.BDS_RELAY_ONLY {["BDS_RELAY_ONLY" := "2"]} = false.
Proof. by vm_compute. Qed.

Example debug_inner_space :
  Config.BDS_DEBUG {["BDS_DEBUG" := "o n"; "BDS_RELAY_ONLY" := "on"]} = false.
Proof. by vm_compute. Qed.

Set Warnings "-clear-no-such-hyp".

(* ===================================================================== *)
(** ** The event loop: registry and deliveries over whole runs *)
(* ===================================================================== *)

(** Closes a goal [x ∉ [y1; ...; yn]] between distinct constructors. *)
Ltac not_in_list :=
  let H := fresh in
  intros H;
  repeat (apply elem_of_cons in H as [H|H]; [discriminate H|]);
  by apply elem_of_nil in H.


Lemma dispatch_transports (ev : event) (w : world) :
  open_conns (dispatch ev w).2
  = match ev with
    | Accept c => {[c]} ∪ open_conns w
    | Lost c => open_conns w ∖ {[c]}
    | _ => open_conns w
    end.
Proof.
  destruct ev as [c|c|c|data|data]; cbn [dispatch].
  - rewrite bind_run. unfold transport_open. by rewrite ws_handler_connected_run.
  - done.
  - rewrite ws_handler_closed_run. by case_decide.
  - by rewrite on_redemption_run.
  - by rewrite on_cheer_run.
Qed.

Lemma run_registry_agree (evs : list event) (w1 w2 : world) :
  connected_clients w1 = connected_clients w2 →
  connected_clients (run evs w1)
  = connected_clients (run (filter (λ ev, is_connection_event ev = true) evs) w2).
Proof.
  revert w1 w2. induction evs as [|ev evs IH]; intros w1 w2 Heq; [done|].
  cbn [run]. destruct (is_connection_event ev) eqn:Hev.
  - rewrite filter_cons_True by done. cbn [run]. apply IH.
    rewrite !dispatch_registry, Heq. done.
  - rewrite filter_cons_False by (by rewrite Hev). apply IH.
    rewrite dispatch_registry, <- Heq. by destruct ev.
Qed.

(** X1. The registry follows the connection events alone: after any run
    it is what the run's [Accept] and [Closed] events by themselves would
    have made it.  In particular no number of broadcasts or lost
    transports changes it, so a dead connection stays registered until
    its handler wakes up. *)
Theorem registry_follows_connection_events (evs : list event) (w : world) :
  connected_clients (run evs w)
  = connected_clients (run (filter (λ ev, is_connection_event ev = true) evs) w)
  ∧ (Forall (λ ev, is_connection_event ev = false) evs →
     connected_clients (run evs w) = connected_clients w).
Proof.
  split; [by apply run_registry_agree|].
  intros Hall. rewrite (run_registry_agree evs w w eq_refl).
  replace (filter _ evs) with (@nil event); [done|].
  symmetry. induction Hall as [|ev evs Hev _ IH]; [done|].
  rewrite filter_cons_False by (by rewrite Hev). done.
Qed.

Lemma registry_follows_connection_events_witness :
  Forall (λ ev, is_connection_event ev = false)
         [Redemption free_hug; Lost 1%nat; Redemption free_hug]
  ∧ connected_clients (run [Redemption free_hug; Lost 1%nat; Redemption free_hug]
                           three_overlays)
    = connected_clients three_overlays.
Proof.
  assert (Forall (λ ev, is_connection_event ev = false)
                 [Redemption free_hug; Lost 1%nat; Redemption free_hug]) as H
    by (repeat constructor).
  split; [exact H|].
  exact (proj2 (registry_follows_connection_events _ three_overlays) H).
Defined.

(** X2. A connection that is not registered, or whose transport is
    closed, is written nothing, however many events follow, until it is
    accepted again. *)
Theorem no_frames_unless_registered_and_open (c : conn) (evs : list event) (w : world) :
  c ∉ connected_clients w ∨ c ∉ open_conns w →
  Accept c ∉ evs →
  frames_of c (log (run evs w)) = frames_of c (log w).
Proof.
  revert w. induction evs as [|ev evs IH]; intros w Hout Hacc; [done|].
  apply not_elem_of_cons in Hacc as [Hne Hacc]. cbn [run].
  rewrite IH; [| |done].
  - rewrite dispatch_frames. unfold delivered.
    destruct (wire_object ev); [|by rewrite app_nil_r].
    rewrite decide_False; [by rewrite app_nil_r|]. intros [??]. by destruct Hout.
  - rewrite dispatch_registry, dispatch_transports.
    destruct ev as [c'|c'|c'|data|data]; try done.
    + assert (c ≠ c') by congruence.
      destruct Hout as [Hout|Hout]; [left|right]; set_solver.
    + destruct Hout as [Hout|Hout]; [left|right]; set_solver.
    + destruct Hout as [Hout|Hout]; [left|right]; set_solver.
Qed.

Lemma no_frames_unless_registered_and_open_witness :
  (5%nat ∉ connected_clients world0 ∨ 5%nat ∉ open_conns world0)
  ∧ (Accept 5%nat ∉ [Accept 1%nat; Redemption free_hug])
  ∧ frames_of 5%nat (log (run [Accept 1%nat; Redemption free_hug] world0))
    = frames_of 5%nat (log world0).
Proof.
  assert (5%nat ∉ connected_clients world0 ∨ 5%nat ∉ open_conns world0) as H1
    by (left; apply not_elem_of_empty).
  assert (Accept 5%nat ∉ [Accept 1%nat; Redemption free_hug]) as H2 by not_in_list.
  split; [exact H1|]. split; [exact H2|].
  exact (no_frames_unless_registered_and_open 5%nat _ world0 H1 H2).
Defined.

(** X3. A connection that stays registered and open through a run
    receives the payload of every broadcast of the run, once each and in
    the order of the calls. *)
Theorem steady_connection_receives_every_payload (c : conn) (evs : list event)
    (w : world) :
  c ∈ connected_clients w → c ∈ open_conns w →
  Lost c ∉ evs → Closed c ∉ evs →
  frames_of c (log (run evs w)) = frames_of c (log w) ++ payloads evs.
Proof.
  revert w. induction evs as [|ev evs IH]; intros w Hreg Hopen Hl Hc.
  - by rewrite app_nil_r.
  - apply not_elem_of_cons in Hl as [Hl1 Hl]. apply not_elem_of_cons in Hc as [Hc1 Hc].
    cbn [run]. rewrite IH; [| | |done|done].
    + rewrite dispatch_frames, <- app_assoc. f_equal. unfold delivered, payloads.
      cbn [omap list_omap]. destruct (wire_object ev); [|done].
      by rewrite decide_True.
    + rewrite dispatch_registry.
      destruct ev as [c'|c'|c'|data|data]; try done; [set_solver|].
      assert (c ≠ c') by congruence. set_solver.
    + rewrite dispatch_transports.
      destruct ev as [c'|c'|c'|data|data]; try done; [set_solver|].
      assert (c ≠ c') by congruence. set_solver.
Qed.

Lemma steady_connection_receives_every_payload_witness :
  let evs := [Redemption free_hug; Lost 2%nat;
              Cheer {| bits := 5; user_name := None |}] in
  3%nat ∈ connected_clients three_overlays
  ∧ 3%nat ∈ open_conns three_overlays
  ∧ (Lost 3%nat ∉ evs)
  ∧ (Closed 3%nat ∉ evs)
  ∧ frames_of 3%nat (log (run evs three_overlays))
    = frames_of 3%nat (log three_overlays) ++ payloads evs.
Proof.
  cbn zeta.
  assert (3%nat ∈ connected_clients three_overlays) as H1
    by (apply elem_of_union_r, elem_of_singleton; reflexivity).
  assert (3%nat ∈ open_conns three_overlays) as H2
    by (apply elem_of_union_r, elem_of_singleton; reflexivity).
  assert (Lost 3%nat ∉ [Redemption free_hug; Lost 2%nat;
                        Cheer {| bits := 5; user_name := None |}]) as H3
    by not_in_list.
  assert (Closed 3%nat ∉ [Redemption free_hug; Lost 2%nat;
                          Cheer {| bits := 5; user_name := None |}]) as H4
    by not_in_list.
  split; [exact H1|]. split; [exact H2|]. split; [exact H3|]. split; [exact H4|].
  exact (steady_connection_receives_every_payload 3%nat _ three_overlays
           H1 H2 H3 H4).
Defined.

Lemma run_registry_with (c : conn) (evs : list event) (w1 w2 : world) :
  Accept c ∉ evs → Closed c ∉ evs →
  c ∉ connected_clients w2 →
  connected_clients w1 = {[c]} ∪ connected_clients w2 →
  connected_clients (run evs w1) = {[c]} ∪ connected_clients (run evs w2)
  ∧ c ∉ connected_clients (run evs w2).
Proof.
  revert w1 w2. induction evs as [|ev evs IH]; intros w1 w2 Ha Hc Hout Heq; [done|].
  apply not_elem_of_cons in Ha as [Ha1 Ha]. apply not_elem_of_cons in Hc as [Hc1 Hc].
  cbn [run]. apply IH; [done|done| |].
  - rewrite dispatch_registry.
    destruct ev as [c'|c'|c'|data|data]; try done; [|set_solver].
    assert (c ≠ c') by congruence. set_solver.
  - rewrite !dispatch_registry, Heq.
    destruct ev as [c'|c'|c'|data|data]; try done; [set_solver|].
    assert (c ≠ c') by congruence. set_solver.
Qed.

(** X4. The whole life of a connection leaves no entry behind: a
    connection that was not registered is registered from its [Accept]
    on, and once its handler has run its [finally] block the registry is
    what it would have been without the connection, whatever happened in
    between. *)
Theorem connection_lifetime_leaves_no_entry (c : conn) (evs : list event)
    (w : world) :
  c ∉ connected_clients w → Accept c ∉ evs → Closed c ∉ evs →
  c ∈ connected_clients (run (Accept c :: evs) w)
  ∧ connected_clients (run (Accept c :: evs ++ [Closed c]) w)
    = connected_clients (run evs w).
Proof.
  intros Hout Ha Hc.
  destruct (run_registry_with c evs (dispatch (Accept c) w).2 w Ha Hc Hout)
    as [Heq Hstill].
  { by rewrite dispatch_registry. }
  split.
  - cbn [run]. rewrite Heq. set_solver.
  - change (Accept c :: evs ++ [Closed c]) with ((Accept c :: evs) ++ [Closed c]).
    rewrite run_app. cbn [run]. rewrite dispatch_registry. cbn [run] in *.
    rewrite Heq. set_solver.
Qed.

Lemma connection_lifetime_leaves_no_entry_witness :
  (5%nat ∉ connected_clients three_overlays)
  ∧ (Accept 5%nat ∉ [Redemption free_hug; Closed 1%nat])
  ∧ (Closed 5%nat ∉ [Redemption free_hug; Closed 1%nat])
  ∧ connected_clients
      (run (Accept 5%nat :: [Redemption free_hug; Closed 1%nat] ++ [Closed 5%nat])
           three_overlays)
    = connected_clients (run [Redemption free_hug; Closed 1%nat] three_overlays).
Proof.
  assert (5%nat ∉ connected_clients three_overlays) as H1.
  { intros [[H|H]%elem_of_union|H]%elem_of_union;
      apply elem_of_singleton in H; discriminate H. }
  assert (Accept 5%nat ∉ [Redemption free_hug; Closed 1%nat]) as H2 by not_in_list.
  assert (Closed 5%nat ∉ [Redemption free_hug; Closed 1%nat]) as H3 by not_in_list.
  split; [exact H1|]. split; [exact H2|]. split; [exact H3|].
  exact (proj2 (connection_lifetime_leaves_no_entry 5%nat _ three_overlays
                  H1 H2 H3)).
Defined.

(* ===================================================================== *)
(** ** [main] outside relay-only mode: authentication, lookup, shutdown *)
(* ===================================================================== *)


Lemma main_stages (ext : externals) (cfg : Config.t) (w : world) :
  main ext cfg w
  = (if Config.relay_only cfg then relay_part else twitch_part ext cfg)
      (with_log (log w ++ binding cfg) w).
Proof.
  unfold main. cbn zeta. rewrite bind_print, !bind_emit, bind_print.
  rewrite !with_log_with_log. cbn [log with_log]. unfold binding.
  rewrite <- !app_assoc. cbn [app]. reflexivity.
Qed.

Lemma load_tokens_run (ext : externals) (w : world) :
  load_tokens ext w
  = (Ok match token_file w with
        | Content text =>
            match json_loads ext text with
            | Some (JDict items) =>
                (dict_get "token" items, dict_get "refresh_token" items)
            | _ => (JNull, JNull)
            end
        | _ => (JNull, JNull)
        end, w).
Proof.
  unfold load_tokens. rewrite bind_run. unfold path_exists, try_except.
  destruct (token_file w) as [| |text] eqn:Hfile; [done| |];
    cbn [negb]; rewrite bind_run; unfold read_json; rewrite Hfile; [done|].
  destruct (json_loads ext text) as [[]|]; done.
Qed.

Lemma saved_authentication_run (ext : externals) (token refresh_token : json)
    (w : world) :
  saved_authentication ext token refresh_token w
  = if truthy token && truthy refresh_token then
      match set_user_authentication ext token refresh_token with
      | None =>
          (Ok token,
           with_log (log w ++ [SetUserAuthentication token refresh_token;
                               Print "Using saved authentication tokens."]) w)
      | Some e =>
          if is_Exception e then
            (Ok JNull,
             with_log (log w ++ [SetUserAuthentication token refresh_token;
                                 Print ("Saved tokens failed (" +:+ exn_msg e
                                          +:+ "), re-authenticating...")]) w)
          else
            (Raise e,
             with_log (log w ++ [SetUserAuthentication token refresh_token]) w)
      end
    else (Ok token, w).
Proof.
  unfold saved_authentication. destruct (truthy token && truthy refresh_token); [|done].
  unfold try_except, twitch_set_user_authentication.
  rewrite bind_assoc, bind_emit.
  destruct (set_user_authentication ext token refresh_token) as [e|].
  - rewrite bind_raise. destruct e as [cls msg].
    destruct (is_Exception (Exn cls msg)); [|done].
    rewrite bind_print, with_log_with_log. cbn [log with_log exn_msg mret M_ret].
    by rewrite <- app_assoc.
  - rewrite bind_mret, bind_print, with_log_with_log. cbn [log with_log mret M_ret].
    by rewrite <- app_assoc.
Qed.

Lemma interactive_authentication_run (ext : externals) (token : json) (w : world) :
  interactive_authentication ext token w
  = if truthy token then (Ok tt, w)
    else
      let w1 :=
        with_log (log w ++ [Print "Opening browser for Twitch authentication...";
                            Authenticate;
                            SetUserAuthentication (JStr (authenticate ext).1)
                                                  (JStr (authenticate ext).2)]) w in
      match set_user_authentication ext (JStr (authenticate ext).1)
                                    (JStr (authenticate ext).2) with
      | Some e => (Raise e, w1)
      | None =>
          match token_file w with
          | Unreadable => (Raise (Exn OSError "Permission denied"), w1)
          | _ =>
              (Ok tt,
               with_token_file
                 (Content (dumps (tokens_object (JStr (authenticate ext).1)
                                                (JStr (authenticate ext).2))))
                 (with_log (log w1 ++ [Print "Authentication successful and tokens saved."]) w))
          end
      end.
Proof.
  unfold interactive_authentication. destruct (truthy token); [done|]. cbn [negb].
  rewrite bind_print, bind_emit. destruct (authenticate ext) as [a b]. cbn [fst snd].
  unfold twitch_set_user_authentication. rewrite bind_assoc, bind_emit.
  rewrite !with_log_with_log. cbn [log with_log]. rewrite <- !app_assoc. cbn [app].
  destruct (set_user_authentication ext (JStr a) (JStr b)) as [e|]; [done|].
  rewrite bind_mret, bind_run. unfold save_tokens. cbn [token_file with_log].
  destruct (token_file w); [|done|];
    unfold print, emit, with_token_file, with_log;
    cbn [log connected_clients open_conns token_file];
    by rewrite <- app_assoc.
Qed.

Lemma subscribe_and_wait_run (ext : externals) (cfg : Config.t) (w : world) :
  subscribe_and_wait ext cfg w
  = match head (get_users ext (Config.target_channel cfg)) with
    | None | Some EmptyString =>
        (Raise (Exn RuntimeError ("Could not find Twitch user for login: "
                                    +:+ Config.target_channel cfg)),
         with_log (log w ++ [GetUsers (Config.target_channel cfg)]) w)
    | Some user_id =>
        (Ok tt,
         with_log (log w ++ GetUsers (Config.target_channel cfg)
                     :: subscription cfg user_id ++ draining) w)
    end.
Proof.
  unfold subscribe_and_wait. rewrite bind_emit.
  destruct (head (get_users ext (Config.target_channel cfg))) as [[|a uid]|]; [done| |done].
  rewrite bind_print, !bind_emit, bind_print. cbv beta.
  unfold try_finally, try_except, await_future, raise, print, emit, mbind, M_bind.
  cbn [is_CancelledError log with_log]. unfold subscription, draining.
  by rewrite <- !app_assoc.
Qed.

Lemma relay_part_run (w : world) :
  relay_part w
  = (Ok tt,
     with_log (log w ++ [Print "Relay-only mode enabled; not connecting to Twitch.";
                         AwaitFuture; Print "Stopping..."; ServerClose]) w).
Proof.
  unfold relay_part. rewrite bind_print, bind_run.
  unfold try_finally, try_except, await_future. rewrite bind_emit. unfold raise.
  cbn [is_CancelledError]. unfold print, emit. cbn [log with_log mret M_ret].
  by rewrite <- !app_assoc.
Qed.

(** The Twitch part of [main], once the credentials are there: the
    authentication steps, which may raise, and then the subscription. *)
Lemma twitch_part_shape (ext : externals) (cfg : Config.t) (w : world) :
  credentials_present cfg = true →
  ∃ auth w1,
    Forall (λ a, is_auth_action a = true) auth
    ∧ log w1 = log w ++ Print "Connecting to Twitch..."
                 :: TwitchInit (Config.app_id cfg) (Config.app_secret cfg)
                 :: auth
    ∧ ((∃ e, twitch_part ext cfg w = (Raise e, w1))
       ∨ twitch_part ext cfg w = subscribe_and_wait ext cfg w1).
Proof.
  unfold credentials_present. intros [[H1 H2]%andb_true_iff H3]%andb_true_iff.
  unfold twitch_part. rewrite bind_print, H1, H2, H3. cbn [negb orb].
  rewrite bind_emit, bind_run, load_tokens_run.
  match goal with
  | |- context [match ?p with pair _ _ => _ end] =>
      destruct p as [token refresh_token]
  end.
  rewrite bind_run, saved_authentication_run.
  rewrite !with_log_with_log. cbn [log with_log].
  assert (∀ tok l,
    ∃ auth w1,
      Forall (λ a, is_auth_action a = true) auth
      ∧ log w1 = (log w ++ [Print "Connecting to Twitch..."]
                    ++ [TwitchInit (Config.app_id cfg) (Config.app_secret cfg)])
                   ++ l ++ auth
      ∧ ((∃ e, (interactive_authentication ext tok ≫= λ _, subscribe_and_wait ext cfg)
                 (with_log ((log w ++ [Print "Connecting to Twitch..."]
                     ++ [TwitchInit (Config.app_id cfg) (Config.app_secret cfg)]) ++ l) w)
               = (Raise e, w1))
         ∨ (interactive_authentication ext tok ≫= λ _, subscribe_and_wait ext cfg)
             (with_log ((log w ++ [Print "Connecting to Twitch..."]
                 ++ [TwitchInit (Config.app_id cfg) (Config.app_secret cfg)]) ++ l) w)
           = subscribe_and_wait ext cfg w1)) as Hrest.
  { intros tok l. rewrite bind_run, interactive_authentication_run.
    destruct (truthy tok).
    - exists [], (with_log ((log w ++ [Print "Connecting to Twitch..."]
                 ++ [TwitchInit (Config.app_id cfg) (Config.app_secret cfg)]) ++ l) w).
      split; [constructor|]. split; [by rewrite app_nil_r|]. by right.
    - cbn zeta. cbn [log with_log token_file].
      destruct (set_user_authentication ext _ _) as [e|].
      + eexists _, _. split; [|split]; [| |left; eexists; reflexivity].
        2:{ cbn [log with_log]. rewrite <- !app_assoc. reflexivity. }
        repeat constructor.
      + destruct (token_file w).
        * eexists _, _. split; [|split]; [| |right; reflexivity].
          2:{ cbn [log with_log with_token_file]. rewrite <- !app_assoc. reflexivity. }
          repeat constructor.
        * eexists _, _. split; [|split]; [| |left; eexists; reflexivity].
          2:{ cbn [log with_log]. rewrite <- !app_assoc. reflexivity. }
          repeat constructor.
        * eexists _, _. split; [|split]; [| |right; reflexivity].
          2:{ cbn [log with_log with_token_file]. rewrite <- !app_assoc. reflexivity. }
          repeat constructor. }
  destruct (truthy token && truthy refresh_token).
  - destruct (set_user_authentication ext token refresh_token) as [e|].
    + destruct (is_Exception e).
      * destruct (Hrest JNull [SetUserAuthentication token refresh_token;
          Print ("Saved tokens failed (" +:+ exn_msg e +:+ "), re-authenticating...")])
          as (auth & w1 & Hauth & Hlog & Hres).
        exists ([SetUserAuthentication token refresh_token;
          Print ("Saved tokens failed (" +:+ exn_msg e +:+ "), re-authenticating...")]
          ++ auth), w1.
        split; [by repeat constructor|]. split.
        { rewrite Hlog, <- ?app_assoc. reflexivity. }
        rewrite <- ?app_assoc in Hres. cbn [app] in Hres.
        rewrite <- ?app_assoc. cbn [app]. exact Hres.
      * eexists _, _. split; [|split]; [| |left; eexists; reflexivity].
        2:{ cbn [log with_log]. rewrite <- !app_assoc. reflexivity. }
        repeat constructor.
    + destruct (Hrest token [SetUserAuthentication token refresh_token;
          Print "Using saved authentication tokens."])
          as (auth & w1 & Hauth & Hlog & Hres).
      exists ([SetUserAuthentication token refresh_token;
          Print "Using saved authentication tokens."] ++ auth), w1.
      split; [by repeat constructor|]. split.
      { rewrite Hlog, <- ?app_assoc. reflexivity. }
      rewrite <- ?app_assoc in Hres. cbn [app] in Hres.
      rewrite <- ?app_assoc. cbn [app]. exact Hres.
  - destruct (Hrest token []) as (auth & w1 & Hauth & Hlog & Hres).
    exists auth, w1. split; [done|]. split.
    { rewrite Hlog, <- ?app_assoc. reflexivity. }
    rewrite app_nil_r in Hres. rewrite <- ?app_assoc in Hres. cbn [app] in Hres.
    rewrite <- ?app_assoc. cbn [app]. exact Hres.
Qed.

Lemma subscribe_and_wait_target (ext : externals) (cfg : Config.t) (w : world) :
  subscribe_and_wait ext cfg w
  = match target_user ext cfg with
    | None =>
        (Raise (could_not_find cfg),
         with_log (log w ++ [GetUsers (Config.target_channel cfg)]) w)
    | Some user_id =>
        (Ok tt,
         with_log (log w ++ GetUsers (Config.target_channel cfg)
                     :: subscription cfg user_id ++ draining) w)
    end.
Proof.
  rewrite subscribe_and_wait_run. unfold target_user.
  by destruct (head (get_users ext (Config.target_channel cfg))) as [[|a uid]|].
Qed.

Lemma credentials_missing (cfg : Config.t) :
  credentials_present cfg = false →
  negb (Py.str_truthy (Config.app_id cfg))
  || negb (Py.str_truthy (Config.app_secret cfg))
  || negb (Py.str_truthy (Config.target_channel cfg)) = true.
Proof.
  unfold credentials_present.
  by destruct (Py.str_truthy (Config.app_id cfg)),
       (Py.str_truthy (Config.app_secret cfg)),
       (Py.str_truthy (Config.target_channel cfg)).
Qed.

(** Every run of [main], by outcome: what it logged after binding. *)
Lemma main_outcome (ext : externals) (cfg : Config.t) (w : world) :
  ∃ new,
    log (main ext cfg w).2 = log w ++ binding cfg ++ new
    ∧ ((Config.relay_only cfg = true ∧ (main ext cfg w).1 = Ok tt
        ∧ new = relay_actions)
       ∨ (Config.relay_only cfg = false ∧ credentials_present cfg = false
          ∧ (main ext cfg w).1 = Raise (Exn RuntimeError missing_configuration)
          ∧ new = [Print "Connecting to Twitch..."])
       ∨ (Config.relay_only cfg = false ∧ credentials_present cfg = true
          ∧ ∃ auth,
              Forall (λ a, is_auth_action a = true) auth
              ∧ ((∃ e, (main ext cfg w).1 = Raise e
                       ∧ new = Print "Connecting to Twitch..."
                               :: TwitchInit (Config.app_id cfg) (Config.app_secret cfg)
                               :: auth)
                 ∨ (target_user ext cfg = None
                    ∧ (main ext cfg w).1 = Raise (could_not_find cfg)
                    ∧ new = Print "Connecting to Twitch..."
                            :: TwitchInit (Config.app_id cfg) (Config.app_secret cfg)
                            :: auth ++ [GetUsers (Config.target_channel cfg)])
                 ∨ (∃ user_id,
                      target_user ext cfg = Some user_id
                      ∧ (main ext cfg w).1 = Ok tt
                      ∧ new = Print "Connecting to Twitch..."
                              :: TwitchInit (Config.app_id cfg) (Config.app_secret cfg)
                              :: auth ++ GetUsers (Config.target_channel cfg)
                              :: subscription cfg user_id ++ draining)))).
Proof.
  rewrite main_stages. destruct (Config.relay_only cfg) eqn:Hrelay.
  - exists relay_actions. rewrite relay_part_run. cbn [fst snd log with_log].
    split; [by rewrite <- app_assoc|]. by left.
  - destruct (credentials_present cfg) eqn:Hcred.
    + destruct (twitch_part_shape ext cfg (with_log (log w ++ binding cfg) w) Hcred)
        as (auth & w1 & Hauth & Hlog & [[e Hres]|Hres]); cbn [log with_log] in Hlog.
      * exists (Print "Connecting to Twitch..."
                  :: TwitchInit (Config.app_id cfg) (Config.app_secret cfg) :: auth).
        rewrite Hres. cbn [fst snd]. split; [by rewrite Hlog, <- app_assoc|].
        right; right. split; [done|]. split; [done|]. exists auth. split; [done|].
        left. by exists e.
      * rewrite Hres, subscribe_and_wait_target.
        destruct (target_user ext cfg) as [uid|]; cbn [fst snd log with_log].
        -- eexists. split; [rewrite Hlog, <- !app_assoc; cbn [app]; reflexivity|].
           right; right. split; [done|]. split; [done|]. exists auth. split; [done|].
           right; right. by exists uid.
        -- eexists. split; [rewrite Hlog, <- !app_assoc; cbn [app]; reflexivity|].
           right; right. split; [done|]. split; [done|]. exists auth. split; [done|].
           right; left. done.
    + exists [Print "Connecting to Twitch..."]. unfold twitch_part.
      rewrite bind_print, (credentials_missing cfg Hcred).
      cbn [fst snd log with_log raise]. split; [by rewrite <- app_assoc|].
      right; left. done.
Qed.

Lemma auth_action_not (a : action) (auth : list action) :
  Forall (λ a, is_auth_action a = true) auth →
  is_auth_action a = false → a ∉ auth.
Proof.
  intros Hall Ha Hin. rewrite Forall_forall in Hall.
  specialize (Hall a Hin). congruence.
Qed.

Lemma auth_actions_bind_nothing (auth : list action) :
  Forall (λ a, is_auth_action a = true) auth →
  Forall (λ a, is_bind a = false) auth.
Proof. intros H. eapply Forall_impl; [exact H|]. by intros []. Qed.

(** X7. On the runs on which [websockets.serve] and [site.start] return
    (the model takes them on their normal return), in either mode, with
    or without credentials and whatever the outcome, the first steps of
    [main] are to bind the websocket listener and then the HTTP site: no
    step towards the upstream platform comes before them, and nothing is
    bound after them. *)
Theorem main_binds_first (ext : externals) (cfg : Config.t) (w : world) :
  ∃ rest,
    log (main ext cfg w).2 = log w ++ binding cfg ++ rest
    ∧ filter (λ a, is_bind a = true) (binding cfg)
      = [Serve "0.0.0.0" (Config.local_ws_port cfg); SiteStart "0.0.0.0" 8080]
    ∧ Forall (λ a, is_upstream a = false) (binding cfg)
    ∧ Forall (λ a, is_bind a = false) rest.
Proof.
  destruct (main_outcome ext cfg w) as (new & Hlog & Hcases).
  exists new. split; [done|]. split; [done|].
  split; [by repeat constructor|].
  destruct Hcases as [(_ & _ & ->)|[(_ & _ & _ & ->)|(_ & _ & auth & Hauth & Hc)]].
  - by repeat constructor.
  - by repeat constructor.
  - apply auth_actions_bind_nothing in Hauth.
    destruct Hc as [(e & _ & ->)|[(_ & _ & ->)|(uid & _ & _ & ->)]].
    + by repeat constructor.
    + repeat constructor. apply Forall_app. split; [done|]. by repeat constructor.
    + repeat constructor. apply Forall_app. split; [done|]. by repeat constructor.
Qed.

(** X8. With the calls of the shutdown taken on their normal return (as
    the model takes them), [main] closes the websocket listener exactly
    on the runs on which it returns normally: on each failure the source
    provides for (missing credentials, an authentication that raises, a
    token file that cannot be written, an unknown channel) it raises
    before the wait, with the listener still open.  It cleans the HTTP
    runner up exactly on the normal returns outside relay-only mode; the
    relay-only shutdown does not. *)
Theorem listener_closed_iff_normal_return (ext : externals) (cfg : Config.t)
    (w : world) (actions : list action) :
  log (main ext cfg w).2 = log w ++ actions →
  ((main ext cfg w).1 = Ok tt ↔ ServerClose ∈ actions)
  ∧ (RunnerCleanup ∈ actions
     ↔ (main ext cfg w).1 = Ok tt ∧ Config.relay_only cfg = false).
Proof.
  intros Hactions.
  destruct (main_outcome ext cfg w) as (new & Hlog & Hcases).
  rewrite Hlog in Hactions. apply app_inv_head in Hactions as <-.
  assert (∀ a, is_bind a = false → (∀ l, a ≠ Print l) → a ≠ RunnerSetup →
               a ∈ binding cfg ++ new ↔ a ∈ new) as Hskip.
  { intros a Ha Hp Hr. rewrite elem_of_app. split; [|by right].
    intros [Hin|Hin]; [|done]. exfalso. unfold binding in Hin.
    rewrite !elem_of_cons, elem_of_nil in Hin.
    destruct Hin as [->|[->|[->|[->|[->|[]]]]]]; try done; by eapply Hp. }
  rewrite !Hskip by done. clear Hskip Hlog.
  destruct Hcases as [(Hr & -> & ->)|[(Hr & _ & -> & ->)|(Hr & _ & auth & Hauth & Hc)]].
  - rewrite Hr. unfold relay_actions. split.
    + split; [intros _|done]. rewrite !elem_of_cons. auto.
    + rewrite !elem_of_cons, elem_of_nil. split; [|by intros [_ ?]].
      intros [?|[?|[?|[?|[]]]]]; discriminate.
  - rewrite !list_elem_of_singleton. split; split; try done. by intros [? _].
  - pose proof (auth_action_not ServerClose auth Hauth eq_refl) as Hs.
    pose proof (auth_action_not RunnerCleanup auth Hauth eq_refl) as Hc'.
    destruct Hc as [(e & -> & ->)|[(_ & -> & ->)|(uid & _ & -> & ->)]].
    + rewrite !elem_of_cons. split; split; try done.
      * by intros [?|[?|?]].
      * by intros [?|[?|?]].
      * by intros [? _].
    + rewrite !elem_of_cons, !elem_of_app, !list_elem_of_singleton.
      split; split; try done.
      * by intros [?|[?|[?|?]]].
      * by intros [?|[?|[?|?]]].
      * by intros [? _].
    + unfold subscription, draining. split; split; try done.
      * intros _. set_solver.
      * intros _. set_solver.
Qed.

Lemma listener_closed_iff_normal_return_witness :
  let actions := log (main twitch_ok with_credentials world0).2 in
  log (main twitch_ok with_credentials world0).2 = log world0 ++ actions
  ∧ ((main twitch_ok with_credentials world0).1 = Ok tt ↔ ServerClose ∈ actions).
Proof.
  cbn zeta. split; [reflexivity|].
  exact (proj1 (listener_closed_iff_normal_return twitch_ok with_credentials
                  world0 _ eq_refl)).
Defined.

(** X9. With the two listen calls and the calls of the shutdown taken on
    their normal return (as the model takes them): [main] subscribes only
    outside relay-only mode, to both kinds of event with one and the same
    user id, which is the non-empty id of the first user the lookup of
    the target channel yields; and after the subscriptions the run goes
    through the wait to the shutdown in this order: stop the event
    subscription, close the listener, clean the HTTP runner up, close the
    Twitch client. *)
Theorem subscriptions_use_first_user (ext : externals) (cfg : Config.t)
    (w : world) (actions : list action) (user_id : string) :
  log (main ext cfg w).2 = log w ++ actions →
  ListenRedemption user_id ∈ actions ∨ ListenCheer user_id ∈ actions →
  Config.relay_only cfg = false
  ∧ head (get_users ext (Config.target_channel cfg)) = Some user_id
  ∧ user_id ≠ EmptyString
  ∧ (main ext cfg w).1 = Ok tt
  ∧ ∃ pre, actions
           = pre ++ [EventSubStart; ListenRedemption user_id;
                     ListenCheer user_id;
                     Print "EventSub connected! Waiting for beans (Points & Bits)..."]
                 ++ draining.
Proof.
  intros Hactions.
  destruct (main_outcome ext cfg w) as (new & Hlog & Hcases).
  rewrite Hlog in Hactions. apply app_inv_head in Hactions as <-.
  revert user_id. intros uid Hin.
  assert (ListenRedemption uid ∈ new ∨ ListenCheer uid ∈ new) as Hnew.
  { destruct Hin as [Hin|Hin]; [left|right];
      apply elem_of_app in Hin as [Hin|Hin]; try done; exfalso;
      unfold binding in Hin; rewrite !elem_of_cons, elem_of_nil in Hin;
      by destruct Hin as [?|[?|[?|[?|[?|[]]]]]]. }
  clear Hin Hlog.
  destruct Hcases as [(_ & _ & ->)|[(_ & _ & _ & ->)|(Hr & _ & auth & Hauth & Hc)]].
  - exfalso. unfold relay_actions in Hnew. rewrite !elem_of_cons, ?elem_of_nil in Hnew.
    by destruct Hnew as [[?|[?|[?|[?|[]]]]]|[?|[?|[?|[?|[]]]]]].
  - exfalso. rewrite !list_elem_of_singleton in Hnew. by destruct Hnew.
  - pose proof (auth_action_not (ListenRedemption uid) auth Hauth eq_refl) as H1.
    pose proof (auth_action_not (ListenCheer uid) auth Hauth eq_refl) as H2.
    destruct Hc as [(e & _ & ->)|[(_ & _ & ->)|(user_id & Huser & Hok & ->)]].
    + exfalso. rewrite !elem_of_cons in Hnew. by destruct Hnew as [[?|[?|?]]|[?|[?|?]]].
    + exfalso. rewrite !elem_of_cons, !elem_of_app, !list_elem_of_singleton in Hnew.
      by destruct Hnew as [[?|[?|[?|?]]]|[?|[?|[?|?]]]].
    + assert (uid = user_id) as ->.
      { unfold subscription, draining in Hnew. cbn [app] in Hnew.
        rewrite !elem_of_cons, !elem_of_app, !elem_of_cons, ?elem_of_nil in Hnew.
        destruct Hnew as [Hl|Hl];
          destruct Hl as [Hl|[Hl|[Hl|Hl]]]; try done; try congruence;
          destruct Hl as [Hl|[Hl|[Hl|[Hl|[Hl|[Hl|[Hl|[Hl|[Hl|[Hl|[Hl|[Hl|[]]]]]]]]]]]]];
          congruence. }
      split; [done|]. unfold target_user in Huser.
      destruct (head (get_users ext (Config.target_channel cfg))) as [[|a s]|];
        try discriminate.
      injection Huser as <-. split; [done|]. split; [done|]. split; [done|].
      eexists (binding cfg ++ Print "Connecting to Twitch..."
                 :: TwitchInit (Config.app_id cfg) (Config.app_secret cfg)
                 :: auth ++ [GetUsers (Config.target_channel cfg);
                             Print ("Listening for events on channel: "
                                      +:+ Config.target_channel cfg
                                      +:+ " (ID: " +:+ String a s +:+ ")")]).
      unfold subscription. rewrite <- !app_assoc. cbn [app].
      rewrite <- !app_assoc. done.
Qed.

Lemma subscriptions_use_first_user_witness :
  let actions := log (main twitch_ok with_credentials world0).2 in
  log (main twitch_ok with_credentials world0).2 = log world0 ++ actions
  ∧ (ListenRedemption "42" ∈ actions ∨ ListenCheer "42" ∈ actions)
  ∧ head (get_users twitch_ok (Config.target_channel with_credentials)) = Some "42"
  ∧ (main twitch_ok with_credentials world0).1 = Ok tt.
Proof.
  cbn zeta.
  assert (ListenRedemption "42" ∈ log (main twitch_ok with_credentials world0).2
          ∨ ListenCheer "42" ∈ log (main twitch_ok with_credentials world0).2) as H.
  { left. do 14 apply list_elem_of_further. apply list_elem_of_here. }
  split; [reflexivity|]. split; [exact H|].
  destruct (subscriptions_use_first_user twitch_ok with_credentials world0 _ "42"
              eq_refl H) as (_ & Hhead & _ & Hok & _).
  split; [exact Hhead|exact Hok].
Defined.

Lemma load_tokens_saved (ext : externals) (w : world) :
  load_tokens ext w = (Ok (saved_tokens ext w), w).
Proof. apply load_tokens_run. Qed.

Lemma credentials_present_true (cfg : Config.t) :
  credentials_present cfg = true →
  negb (Py.str_truthy (Config.app_id cfg))
  || negb (Py.str_truthy (Config.app_secret cfg))
  || negb (Py.str_truthy (Config.target_channel cfg)) = false.
Proof.
  unfold credentials_present.
  by destruct (Py.str_truthy (Config.app_id cfg)),
       (Py.str_truthy (Config.app_secret cfg)),
       (Py.str_truthy (Config.target_channel cfg)).
Qed.

(** What [subscribe_and_wait] leaves behind, whatever the lookup gives. *)
Lemma subscribe_and_wait_effect (ext : externals) (cfg : Config.t) (w : world) :
  ∃ rest,
    log (subscribe_and_wait ext cfg w).2
    = log w ++ GetUsers (Config.target_channel cfg) :: rest
    ∧ token_file (subscribe_and_wait ext cfg w).2 = token_file w
    ∧ Forall (λ a, authenticates a = false) rest.
Proof.
  rewrite subscribe_and_wait_target.
  destruct (target_user ext cfg) as [uid|]; eexists; cbn [snd log with_log token_file];
    (split; [reflexivity|]); (split; [reflexivity|]); by repeat constructor.
Qed.

(** [main] in the Twitch branch, up to the authentication. *)
Lemma main_twitch_run (ext : externals) (cfg : Config.t) (w : world) :
  Config.relay_only cfg = false → credentials_present cfg = true →
  main ext cfg w
  = (token ← saved_authentication ext (saved_tokens ext w).1 (saved_tokens ext w).2;
     interactive_authentication ext token ;;
     subscribe_and_wait ext cfg)
      (with_log (log w ++ binding cfg
                   ++ [Print "Connecting to Twitch...";
                       TwitchInit (Config.app_id cfg) (Config.app_secret cfg)]) w).
Proof.
  intros Hrelay Hcred. rewrite main_stages, Hrelay. unfold twitch_part.
  rewrite bind_print, (credentials_present_true cfg Hcred), bind_emit, bind_run.
  rewrite load_tokens_saved. rewrite !with_log_with_log. cbn [log with_log].
  destruct (saved_tokens ext w) as [token refresh_token] eqn:Hsaved.
  cbn [fst snd]. rewrite <- !app_assoc. cbn [app].
  assert (saved_tokens ext (with_log (log w ++ binding cfg
             ++ [Print "Connecting to Twitch...";
                 TwitchInit (Config.app_id cfg) (Config.app_secret cfg)]) w)
          = saved_tokens ext w) as -> by done.
  by rewrite Hsaved.
Qed.

(** X10. Saved tokens that Twitch accepts are used as they are: [main]
    sets the user authentication with them once, does not open the
    browser, and leaves the token file alone. *)
Theorem saved_tokens_accepted (ext : externals) (cfg : Config.t) (w : world)
    (token refresh_token : json) :
  Config.relay_only cfg = false → credentials_present cfg = true →
  saved_tokens ext w = (token, refresh_token) →
  truthy token = true → truthy refresh_token = true →
  set_user_authentication ext token refresh_token = None →
  ∃ rest,
    log (main ext cfg w).2
    = log w ++ binding cfg
        ++ [Print "Connecting to Twitch...";
            TwitchInit (Config.app_id cfg) (Config.app_secret cfg);
            SetUserAuthentication token refresh_token;
            Print "Using saved authentication tokens.";
            GetUsers (Config.target_channel cfg)] ++ rest
    ∧ Forall (λ a, authenticates a = false) rest
    ∧ token_file (main ext cfg w).2 = token_file w.
Proof.
  intros Hrelay Hcred Hsaved Ht Hr Hsua.
  rewrite (main_twitch_run ext cfg w Hrelay Hcred), Hsaved. cbn [fst snd].
  rewrite bind_run, saved_authentication_run, Ht, Hr, Hsua. cbn [andb].
  rewrite bind_run, interactive_authentication_run, Ht.
  rewrite with_log_with_log. cbn [log with_log].
  match goal with |- context [subscribe_and_wait ext cfg ?w1] =>
    destruct (subscribe_and_wait_effect ext cfg w1) as (rest & Hlog & Hfile & Hrest)
  end.
  exists rest. rewrite Hlog, Hfile. cbn [log with_log token_file].
  split; [|done]. rewrite <- !app_assoc. done.
Qed.

Lemma saved_tokens_accepted_witness :
  let w := with_token_file (Content saved_text) world0 in
  Config.relay_only with_credentials = false
  ∧ credentials_present with_credentials = true
  ∧ saved_tokens twitch_with_parser w = (JStr "access", JStr "refresh")
  ∧ truthy (JStr "access") = true
  ∧ truthy (JStr "refresh") = true
  ∧ set_user_authentication twitch_with_parser (JStr "access") (JStr "refresh") = None
  ∧ token_file (main twitch_with_parser with_credentials w).2 = token_file w.
Proof.
  cbn zeta. repeat (split; [reflexivity|]).
  destruct (saved_tokens_accepted twitch_with_parser with_credentials
              (with_token_file (Content saved_text) world0)
              (JStr "access") (JStr "refresh")
              eq_refl eq_refl eq_refl eq_refl eq_refl eq_refl)
    as (rest & _ & _ & Hfile).
  exact Hfile.
Defined.

(** X11. Saved tokens that Twitch rejects with an exception are not
    fatal: [main] reports the failure, authenticates in the browser, sets
    the user authentication with the fresh pair and overwrites the token
    file with it (when these two steps do not fail themselves), and goes
    on to the channel lookup. *)
Theorem rejected_tokens_fall_back (ext : externals) (cfg : Config.t) (w : world)
    (token refresh_token : json) (e : exn) :
  Config.relay_only cfg = false → credentials_present cfg = true →
  saved_tokens ext w = (token, refresh_token) →
  truthy token = true → truthy refresh_token = true →
  set_user_authentication ext token refresh_token = Some e →
  is_Exception e = true →
  set_user_authentication ext (JStr (authenticate ext).1) (JStr (authenticate ext).2)
  = None →
  token_file w ≠ Unreadable →
  ∃ rest,
    log (main ext cfg w).2
    = log w ++ binding cfg
        ++ [Print "Connecting to Twitch...";
            TwitchInit (Config.app_id cfg) (Config.app_secret cfg);
            SetUserAuthentication token refresh_token;
            Print ("Saved tokens failed (" +:+ exn_msg e +:+ "), re-authenticating...");
            Print "Opening browser for Twitch authentication...";
            Authenticate;
            SetUserAuthentication (JStr (authenticate ext).1)
                                  (JStr (authenticate ext).2);
            Print "Authentication successful and tokens saved.";
            GetUsers (Config.target_channel cfg)] ++ rest
    ∧ Forall (λ a, authenticates a = false) rest
    ∧ token_file (main ext cfg w).2
      = Content (dumps (tokens_object (JStr (authenticate ext).1)
                                      (JStr (authenticate ext).2))).
Proof.
  intros Hrelay Hcred Hsaved Ht Hr Hsua He Hsua' Hfile.
  rewrite (main_twitch_run ext cfg w Hrelay Hcred), Hsaved. cbn [fst snd].
  rewrite bind_run, saved_authentication_run, Ht, Hr, Hsua, He. cbn [andb].
  rewrite bind_run, interactive_authentication_run. cbn [truthy]. cbn zeta.
  rewrite Hsua'. cbn [token_file with_log].
  assert (∀ A (x y : A), match token_file w with
                         | Unreadable => x | _ => y end = y) as Hm.
  { intros A x y. by destruct (token_file w). }
  rewrite Hm. rewrite !with_log_with_log. cbn [log with_log].
  match goal with |- context [subscribe_and_wait ext cfg ?w1] =>
    destruct (subscribe_and_wait_effect ext cfg w1) as (rest & Hlog & Hf & Hrest)
  end.
  exists rest. rewrite Hlog, Hf. cbn [log with_log with_token_file token_file].
  split; [|done]. rewrite <- !app_assoc. done.
Qed.

Lemma rejected_tokens_fall_back_witness :
  let w := with_token_file (Content "stale") world0 in
  let e := Exn TwitchAPIException "invalid token" in
  Config.relay_only with_credentials = false
  ∧ credentials_present with_credentials = true
  ∧ saved_tokens twitch_revoked w = (JStr "old", JStr "older")
  ∧ truthy (JStr "old") = true
  ∧ truthy (JStr "older") = true
  ∧ set_user_authentication twitch_revoked (JStr "old") (JStr "older") = Some e
  ∧ is_Exception e = true
  ∧ set_user_authentication twitch_revoked (JStr (authenticate twitch_revoked).1)
                            (JStr (authenticate twitch_revoked).2) = None
  ∧ token_file w ≠ Unreadable
  ∧ token_file (main twitch_revoked with_credentials w).2
    = Content (dumps (tokens_object (JStr "access") (JStr "refresh"))).
Proof.
  cbn zeta.
  assert (token_file (with_token_file (Content "stale") world0) ≠ Unreadable) as Hf
    by discriminate.
  repeat (split; [reflexivity|]). split; [exact Hf|].
  destruct (rejected_tokens_fall_back twitch_revoked with_credentials
              (with_token_file (Content "stale") world0)
              (JStr "old") (JStr "older") (Exn TwitchAPIException "invalid token")
              eq_refl eq_refl eq_refl eq_refl eq_refl eq_refl eq_refl eq_refl Hf)
    as (rest & _ & _ & Hfile).
  exact Hfile.
Defined.

(** X12. When the token file has a token and no usable refresh token,
    [main] neither tries the saved token nor authenticates in the
    browser: it goes straight to the channel lookup and, if the channel
    is found, subscribes without having set any user authentication. *)
Theorem token_without_refresh_token_skips_authentication (ext : externals)
    (cfg : Config.t) (w : world) (token refresh_token : json) :
  Config.relay_only cfg = false → credentials_present cfg = true →
  saved_tokens ext w = (token, refresh_token) →
  truthy token = true → truthy refresh_token = false →
  ∃ rest,
    log (main ext cfg w).2
    = log w ++ binding cfg
        ++ [Print "Connecting to Twitch...";
            TwitchInit (Config.app_id cfg) (Config.app_secret cfg);
            GetUsers (Config.target_channel cfg)] ++ rest
    ∧ Forall (λ a, authenticates a = false) rest
    ∧ token_file (main ext cfg w).2 = token_file w
    ∧ (∀ user_id, target_user ext cfg = Some user_id →
                  (main ext cfg w).1 = Ok tt ∧ ListenRedemption user_id ∈ rest
                  ∧ ListenCheer user_id ∈ rest).
Proof.
  intros Hrelay Hcred Hsaved Ht Hr.
  rewrite (main_twitch_run ext cfg w Hrelay Hcred), Hsaved. cbn [fst snd].
  rewrite bind_run, saved_authentication_run, Ht, Hr. cbn [andb].
  rewrite bind_run, interactive_authentication_run, Ht.
  rewrite subscribe_and_wait_target.
  destruct (target_user ext cfg) as [uid|];
    eexists; cbn [fst snd log with_log token_file].
  - split; [by rewrite <- !app_assoc|]. split; [by repeat constructor|].
    split; [done|]. intros ? [= <-]. split; [done|].
    unfold subscription. rewrite !elem_of_app, !elem_of_cons. split; left; auto.
  - split; [by rewrite <- !app_assoc|]. split; [constructor|]. done.
Qed.

Lemma token_without_refresh_token_skips_authentication_witness :
  let w := with_token_file (Content (wire_text "{'token': 'abc'}")) world0 in
  Config.relay_only with_credentials = false
  ∧ credentials_present with_credentials = true
  ∧ saved_tokens twitch_half_saved w = (JStr "abc", JNull)
  ∧ truthy (JStr "abc") = true
  ∧ truthy JNull = false
  ∧ (main twitch_half_saved with_credentials w).1 = Ok tt.
Proof.
  cbn zeta. repeat (split; [reflexivity|]).
  destruct (token_without_refresh_token_skips_authentication twitch_half_saved
              with_credentials
              (with_token_file (Content (wire_text "{'token': 'abc'}")) world0)
              (JStr "abc") JNull eq_refl eq_refl eq_refl eq_refl eq_refl)
    as (rest & _ & _ & _ & Hsub).
  exact (proj1 (Hsub "42" eq_refl)).
Defined.

(** X13. When the lookup of the target channel yields no user, or a user
    with an empty id, [main] never returns normally and never starts the
    event subscription; if it got as far as the lookup, the exception is
    the [RuntimeError] that names the channel.  The listener stays
    open. *)
Theorem unknown_channel_is_fatal (ext : externals) (cfg : Config.t) (w : world) :
  Config.relay_only cfg = false → credentials_present cfg = true →
  head (get_users ext (Config.target_channel cfg)) = None
  ∨ head (get_users ext (Config.target_channel cfg)) = Some EmptyString →
  ∃ e new,
    (main ext cfg w).1 = Raise e
    ∧ log (main ext cfg w).2 = log w ++ new
    ∧ (GetUsers (Config.target_channel cfg) ∈ new →
       e = Exn RuntimeError ("Could not find Twitch user for login: "
                               +:+ Config.target_channel cfg))
    ∧ (EventSubStart ∉ new)
    ∧ (ServerClose ∉ new).
Proof.
  intros Hrelay Hcred Hhead.
  assert (target_user ext cfg = None) as Hnone.
  { unfold target_user. by destruct Hhead as [-> | ->]. }
  destruct (main_outcome ext cfg w) as (new & Hlog & Hcases).
  assert (∀ a, is_bind a = false → (∀ l, a ≠ Print l) → a ≠ RunnerSetup →
               a ∉ new → a ∉ binding cfg ++ new) as Hskip.
  { intros a Ha Hp Hr Hn [Hin|Hin]%elem_of_app; [|done]. unfold binding in Hin.
    rewrite !elem_of_cons, elem_of_nil in Hin.
    destruct Hin as [->|[->|[->|[->|[->|[]]]]]]; try done; by eapply Hp. }
  destruct Hcases as [(Hr & _)|[(_ & Hc & _)|(_ & _ & auth & Hauth & Hc)]];
    [congruence..|].
  pose proof (auth_action_not EventSubStart auth Hauth eq_refl) as H1.
  pose proof (auth_action_not ServerClose auth Hauth eq_refl) as H2.
  pose proof (auth_action_not (GetUsers (Config.target_channel cfg)) auth Hauth eq_refl)
    as H3.
  destruct Hc as [(e & He & ->)|[(_ & He & ->)|(uid & Huid & _)]]; [| |congruence].
  - exists e, (binding cfg ++ Print "Connecting to Twitch..."
                 :: TwitchInit (Config.app_id cfg) (Config.app_secret cfg) :: auth).
    split; [done|]. split; [done|]. split; [|split].
    + intros Hin. exfalso. revert Hin. apply Hskip; try done.
      rewrite !elem_of_cons. by intros [?|[?|?]].
    + apply Hskip; try done. rewrite !elem_of_cons. by intros [?|[?|?]].
    + apply Hskip; try done. rewrite !elem_of_cons. by intros [?|[?|?]].
  - eexists _, (binding cfg ++ _). split; [exact He|]. split; [exact Hlog|].
    split; [done|]. split.
    + apply Hskip; try done.
      rewrite !elem_of_cons, elem_of_app, list_elem_of_singleton.
      by intros [?|[?|[?|?]]].
    + apply Hskip; try done.
      rewrite !elem_of_cons, elem_of_app, list_elem_of_singleton.
      by intros [?|[?|[?|?]]].
Qed.

Lemma unknown_channel_is_fatal_witness :
  Config.relay_only with_credentials = false
  ∧ credentials_present with_credentials = true
  ∧ (head (get_users twitch_unknown_channel (Config.target_channel with_credentials))
     = None
     ∨ head (get_users twitch_unknown_channel (Config.target_channel with_credentials))
       = Some EmptyString)
  ∧ ∃ e, (main twitch_unknown_channel with_credentials world0).1 = Raise e.
Proof.
  assert (head (get_users twitch_unknown_channel
                          (Config.target_channel with_credentials)) = None
          ∨ head (get_users twitch_unknown_channel
                            (Config.target_channel with_credentials))
            = Some EmptyString) as H by (left; reflexivity).
  split; [reflexivity|]. split; [reflexivity|]. split; [exact H|].
  destruct (unknown_channel_is_fatal twitch_unknown_channel with_credentials world0
              eq_refl eq_refl H) as (e & new & He & _).
  exists e. exact He.
Defined.

(** X6. What [save_tokens] writes, [load_tokens] reads back: when the
    file can be written and the parser inverts [json.dumps] on the text
    written, loading right after saving returns the pair that was saved. *)
Theorem save_then_load (ext : externals) (token refresh_token : json) (w : world) :
  token_file w ≠ Unreadable →
  json_loads ext (dumps (tokens_object token refresh_token))
  = Some (tokens_object token refresh_token) →
  (save_tokens token refresh_token ;; load_tokens ext) w
  = (Ok (token, refresh_token),
     with_token_file (Content (dumps (tokens_object token refresh_token))) w).
Proof.
  intros Hfile Hparse. rewrite bind_run. unfold save_tokens.
  destruct (token_file w) eqn:Hf; [|done|];
    rewrite load_tokens_saved; unfold saved_tokens; cbn [token_file with_token_file];
    fold (tokens_object token refresh_token); by rewrite Hparse.
Qed.

Lemma save_then_load_witness :
  token_file world0 ≠ Unreadable
  ∧ json_loads twitch_with_parser
               (dumps (tokens_object (JStr "access") (JStr "refresh")))
    = Some (tokens_object (JStr "access") (JStr "refresh"))
  ∧ (save_tokens (JStr "access") (JStr "refresh") ;; load_tokens twitch_with_parser)
      world0
    = (Ok (JStr "access", JStr "refresh"),
       with_token_file
         (Content (dumps (tokens_object (JStr "access") (JStr "refresh")))) world0).
Proof.
  assert (token_file world0 ≠ Unreadable) as Hf by discriminate.
  split; [exact Hf|]. split; [reflexivity|].
  exact (save_then_load twitch_with_parser (JStr "access") (JStr "refresh") world0
           Hf eq_refl).
Defined.

(** X14. The tokens one run of [main] saves serve the next run: starting
    without a token file, the first run authenticates in the browser and
    saves the pair; a second run in the world the first one left (with a
    parser that reads the file back and a Twitch client that accepts the
    pair) uses the saved pair and does not open the browser again. *)
Theorem tokens_saved_by_one_run_serve_the_next (ext : externals) (cfg : Config.t)
    (w : world) :
  Config.relay_only cfg = false → credentials_present cfg = true →
  token_file w = Absent →
  (authenticate ext).1 ≠ EmptyString → (authenticate ext).2 ≠ EmptyString →
  set_user_authentication ext (JStr (authenticate ext).1) (JStr (authenticate ext).2)
  = None →
  json_loads ext (dumps (tokens_object (JStr (authenticate ext).1)
                                       (JStr (authenticate ext).2)))
  = Some (tokens_object (JStr (authenticate ext).1) (JStr (authenticate ext).2)) →
  let w1 := (main ext cfg w).2 in
  (∃ rest1,
     log w1 = log w ++ binding cfg
                ++ [Print "Connecting to Twitch...";
                    TwitchInit (Config.app_id cfg) (Config.app_secret cfg);
                    Print "Opening browser for Twitch authentication...";
                    Authenticate;
                    SetUserAuthentication (JStr (authenticate ext).1)
                                          (JStr (authenticate ext).2);
                    Print "Authentication successful and tokens saved.";
                    GetUsers (Config.target_channel cfg)] ++ rest1)
  ∧ ∃ rest2,
      log (main ext cfg w1).2
      = log w1 ++ binding cfg
          ++ [Print "Connecting to Twitch...";
              TwitchInit (Config.app_id cfg) (Config.app_secret cfg);
              SetUserAuthentication (JStr (authenticate ext).1)
                                    (JStr (authenticate ext).2);
              Print "Using saved authentication tokens.";
              GetUsers (Config.target_channel cfg)] ++ rest2
      ∧ Forall (λ a, authenticates a = false) rest2
      ∧ token_file (main ext cfg w1).2 = token_file w1.
Proof.
  intros Hrelay Hcred Hfile Ha Hb Hsua Hparse w1.
  assert (saved_tokens ext w = (JNull, JNull)) as Hsaved
    by (unfold saved_tokens; by rewrite Hfile).
  assert (∃ rest1,
    log w1 = log w ++ binding cfg
               ++ [Print "Connecting to Twitch...";
                   TwitchInit (Config.app_id cfg) (Config.app_secret cfg);
                   Print "Opening browser for Twitch authentication...";
                   Authenticate;
                   SetUserAuthentication (JStr (authenticate ext).1)
                                         (JStr (authenticate ext).2);
                   Print "Authentication successful and tokens saved.";
                   GetUsers (Config.target_channel cfg)] ++ rest1
    ∧ token_file w1
      = Content (dumps (tokens_object (JStr (authenticate ext).1)
                                      (JStr (authenticate ext).2))))
    as (rest1 & Hlog1 & Hfile1).
  { subst w1. rewrite (main_twitch_run ext cfg w Hrelay Hcred), Hsaved. cbn [fst snd].
    rewrite bind_run, saved_authentication_run. cbn [truthy andb].
    rewrite bind_run, interactive_authentication_run. cbn [truthy]. cbn zeta.
    rewrite Hsua. cbn [token_file with_log]. rewrite Hfile.
    rewrite !with_log_with_log. cbn [log with_log].
    match goal with |- context [subscribe_and_wait ext cfg ?w1] =>
      destruct (subscribe_and_wait_effect ext cfg w1) as (rest & Hlog & Hf & Hrest)
    end.
    exists rest. rewrite Hlog, Hf. cbn [log with_log with_token_file token_file].
    split; [|done]. rewrite <- !app_assoc. done. }
  split; [by exists rest1|].
  assert (saved_tokens ext w1
          = (JStr (authenticate ext).1, JStr (authenticate ext).2)) as Hsaved1.
  { unfold saved_tokens. by rewrite Hfile1, Hparse. }
  assert (∀ s, s ≠ EmptyString → truthy (JStr s) = true) as Htruthy
    by (by intros [|??]).
  rewrite (main_twitch_run ext cfg w1 Hrelay Hcred), Hsaved1. cbn [fst snd].
  rewrite bind_run, saved_authentication_run, !Htruthy, Hsua by done. cbn [andb].
  rewrite bind_run, interactive_authentication_run, Htruthy by done.
  rewrite with_log_with_log. cbn [log with_log].
  match goal with |- context [subscribe_and_wait ext cfg ?w2] =>
    destruct (subscribe_and_wait_effect ext cfg w2) as (rest & Hlog & Hf & Hrest)
  end.
  exists rest. rewrite Hlog, Hf. cbn [log with_log token_file].
  split; [|done]. rewrite <- !app_assoc. done.
Qed.

Lemma tokens_saved_by_one_run_serve_the_next_witness :
  let w1 := (main twitch_with_parser with_credentials world0).2 in
  Config.relay_only with_credentials = false
  ∧ credentials_present with_credentials = true
  ∧ token_file world0 = Absent
  ∧ (authenticate twitch_with_parser).1 ≠ EmptyString
  ∧ (authenticate twitch_with_parser).2 ≠ EmptyString
  ∧ set_user_authentication twitch_with_parser
      (JStr (authenticate twitch_with_parser).1)
      (JStr (authenticate twitch_with_parser).2) = None
  ∧ json_loads twitch_with_parser
      (dumps (tokens_object (JStr (authenticate twitch_with_parser).1)
                            (JStr (authenticate twitch_with_parser).2)))
    = Some (tokens_object (JStr (authenticate twitch_with_parser).1)
                          (JStr (authenticate twitch_with_parser).2))
  ∧ token_file (main twitch_with_parser with_credentials w1).2 = token_file w1.
Proof.
  cbn zeta.
  assert ((authenticate twitch_with_parser).1 ≠ EmptyString) as Ha by discriminate.
  assert ((authenticate twitch_with_parser).2 ≠ EmptyString) as Hb by discriminate.
  split; [reflexivity|]. split; [reflexivity|]. split; [reflexivity|].
  split; [exact Ha|]. split; [exact Hb|]. split; [reflexivity|].
  split; [reflexivity|].
  destruct (tokens_saved_by_one_run_serve_the_next twitch_with_parser
              with_credentials world0 eq_refl eq_refl eq_refl Ha Hb eq_refl eq_refl)
    as (_ & rest2 & _ & _ & Hfile).
  exact Hfile.
Defined.

(* ===================================================================== *)
(** ** The flags: whitespace and case *)
(* ===================================================================== *)

Lemma lstrip_all_space (s : string) : all_space s = true → Py.lstrip s = EmptyString.
Proof.
  induction s as [|a s IH]; [done|]. cbn [all_space Py.lstrip].
  intros [Ha Hs]%andb_true_iff. rewrite Ha. by apply IH.
Qed.

Lemma rstrip_all_space (s : string) : all_space s = true → Py.rstrip s = EmptyString.
Proof.
  induction s as [|a s IH]; [done|]. cbn [all_space Py.rstrip].
  intros [Ha Hs]%andb_true_iff. by rewrite IH, Ha.
Qed.

Lemma lstrip_pad (pre s : string) :
  all_space pre = true → Py.lstrip (pre +:+ s) = Py.lstrip s.
Proof.
  induction pre as [|a pre IH]; [done|]. cbn [all_space].
  intros [Ha Hpre]%andb_true_iff. rewrite append_cons. cbn [Py.lstrip].
  rewrite Ha. by apply IH.
Qed.

Lemma rstrip_pad (s post : string) :
  all_space post = true → Py.rstrip (s +:+ post) = Py.rstrip s.
Proof.
  intros Hpost. induction s as [|a s IH].
  - by apply rstrip_all_space.
  - rewrite append_cons. cbn [Py.rstrip]. by rewrite IH.
Qed.

Lemma strip_pad_right (s post : string) :
  all_space post = true → Py.strip (s +:+ post) = Py.strip s.
Proof.
  intros Hpost. unfold Py.strip. induction s as [|a s IH].
  - change (EmptyString +:+ post) with post.
    by rewrite (lstrip_all_space post Hpost).
  - rewrite append_cons. cbn [Py.lstrip]. destruct (Py.isspace a); [done|].
    change (String a (s +:+ post)) with (String a s +:+ post).
    by apply rstrip_pad.
Qed.

Lemma strip_pad (pre s post : string) :
  all_space pre = true → all_space post = true →
  Py.strip (pre +:+ s +:+ post) = Py.strip s.
Proof.
  intros Hpre Hpost. rewrite <- (strip_pad_right s post Hpost).
  unfold Py.strip. by rewrite lstrip_pad.
Qed.

Lemma isspace_lower_char (a : ascii) : Py.isspace (Py.lower_char a) = Py.isspace a.
Proof. by destruct a as [[] [] [] [] [] [] [] []]; vm_compute. Qed.

Lemma lower_char_idempotent (a : ascii) :
  Py.lower_char (Py.lower_char a) = Py.lower_char a.
Proof. by destruct a as [[] [] [] [] [] [] [] []]; vm_compute. Qed.

Lemma lower_idempotent (s : string) : Py.lower (Py.lower s) = Py.lower s.
Proof.
  induction s as [|a s IH]; [done|]. cbn [Py.lower].
  by rewrite lower_char_idempotent, IH.
Qed.

Lemma lstrip_lower (s : string) : Py.lstrip (Py.lower s) = Py.lower (Py.lstrip s).
Proof.
  induction s as [|a s IH]; [done|]. cbn [Py.lower Py.lstrip].
  rewrite isspace_lower_char. by destruct (Py.isspace a).
Qed.

Lemma rstrip_lower (s : string) : Py.rstrip (Py.lower s) = Py.lower (Py.rstrip s).
Proof.
  induction s as [|a s IH]; [done|]. cbn [Py.lower Py.rstrip].
  rewrite IH, isspace_lower_char.
  destruct (Py.rstrip s); [by destruct (Py.isspace a)|done].
Qed.

Lemma strip_lower (s : string) : Py.strip (Py.lower s) = Py.lower (Py.strip s).
Proof. unfold Py.strip. by rewrite lstrip_lower, rstrip_lower. Qed.

(** X15. Whitespace around the value of [BDS_RELAY_ONLY] or [BDS_DEBUG]
    does not change the flag. *)
Theorem flags_ignore_surrounding_whitespace (environ : gmap string string)
    (pre value post : string) :
  all_space pre = true → all_space post = true →
  Config.BDS_RELAY_ONLY (<["BDS_RELAY_ONLY" := pre +:+ value +:+ post]> environ)
  = Config.BDS_RELAY_ONLY (<["BDS_RELAY_ONLY" := value]> environ)
  ∧ Config.BDS_DEBUG (<["BDS_DEBUG" := pre +:+ value +:+ post]> environ)
    = Config.BDS_DEBUG (<["BDS_DEBUG" := value]> environ).
Proof.
  intros Hpre Hpost. unfold Config.BDS_RELAY_ONLY, Config.BDS_DEBUG, Config.getenv.
  rewrite !lookup_insert_eq. cbn [from_option id]. by rewrite strip_pad.
Qed.

Lemma flags_ignore_surrounding_whitespace_witness :
  all_space " " = true
  ∧ all_space "  " = true
  ∧ Config.BDS_RELAY_ONLY (<["BDS_RELAY_ONLY" := " " +:+ "on" +:+ "  "]> ∅)
    = Config.BDS_RELAY_ONLY (<["BDS_RELAY_ONLY" := "on"]> ∅).
Proof.
  split; [reflexivity|]. split; [reflexivity|].
  exact (proj1 (flags_ignore_surrounding_whitespace ∅ " " "on" "  "
                  eq_refl eq_refl)).
Defined.

(** X16. The flags do not depend on the case of the value: two values
    with the same lowercase form give the same flag. *)
Theorem flags_ignore_case (environ : gmap string string) (value1 value2 : string) :
  Py.lower value1 = Py.lower value2 →
  Config.BDS_RELAY_ONLY (<["BDS_RELAY_ONLY" := value1]> environ)
  = Config.BDS_RELAY_ONLY (<["BDS_RELAY_ONLY" := value2]> environ)
  ∧ Config.BDS_DEBUG (<["BDS_DEBUG" := value1]> environ)
    = Config.BDS_DEBUG (<["BDS_DEBUG" := value2]> environ).
Proof.
  intros Hlow. unfold Config.BDS_RELAY_ONLY, Config.BDS_DEBUG, Config.getenv.
  rewrite !lookup_insert_eq. cbn [from_option id].
  by rewrite <- !strip_lower, Hlow.
Qed.

Lemma flags_ignore_case_witness :
  Py.lower "TRUE" = Py.lower "True"
  ∧ Config.BDS_DEBUG (<["BDS_DEBUG" := "TRUE"]> ∅)
    = Config.BDS_DEBUG (<["BDS_DEBUG" := "True"]> ∅).
Proof.
  split; [reflexivity|].
  exact (proj2 (flags_ignore_case ∅ "TRUE" "True" eq_refl)).
Defined.
